(** * The cleanup status checker: a shallow embedding and its properties

    Source: [src/cleanup-status-checker/cleanup_status_checker.py].

    The module deletes the vector tables of outdated knowledge bases.  It
    talks to four services (a secret store, a PostgreSQL database, the
    DynamoDB status table and the Bedrock catalogue) and re-invokes itself
    through the Lambda API.  Every function of the module is embedded as a
    computation in a state-and-exception monad over a [World] that holds
    what the services store, the number of service calls made so far and
    the trace of the effects that were accepted.

    How the text is read.  The module is a draft that Python does not
    accept as it stands: the parameter lists of lines 48 and 185 are
    malformed and the [try] of line 377 has no handler.  Each function is
    embedded from its own text under Python's rules.  A name that a
    function neither binds nor takes as a parameter is looked up in the
    module, and raises NameError when the module does not bind it; a local
    that is read before its assignment raises UnboundLocalError; a method
    is looked up in the class of the object it is called on, raising
    AttributeError when the class does not declare it, and is called with
    the object as its first argument, raising TypeError when the
    declaration does not take that many.  A [try] without a handler
    handles nothing.  Three names stand for configuration that the module
    reads and never sets, and are taken as given: [self.batch_size],
    [DATABASE_NAME] and [DATABASE_SECRET_NAME]. *)

From Stdlib Require Import ZArith String Ascii List Lia Bool.
From stdpp Require Import base option list gmap strings.

Import ListNotations.
Local Open Scope Z_scope.

(** ** Exceptions and results *)

(** [ClientError] is botocore's; [KeyError] comes from [event[...]];
    [ValueError] from [range] and [time.sleep]; [OtherError] stands for every
    other subclass of [Exception] (psycopg2 errors, [NameError],
    [UnboundLocalError], [AttributeError], [TypeError], [OverflowError],
    botocore's ParamValidationError). *)
Inductive Exn : Type :=
| ClientError
| KeyError (key : string)
| ValueError
| OtherError.

Inductive Result (A : Type) : Type :=
| Ok (a : A)
| Raise (e : Exn).
Arguments Ok {A} a.
Arguments Raise {A} e.

(** ** Data model *)

(** An item of the DynamoDB table, keyed by [ReverseEnggID]. *)
Record Item : Type := mkItem {
  KBID : option string;
  DSID : option string;
  CleanupStatus : option string;
  CleanupComment : option string
}.

Definition empty_item : Item := mkItem None None None None.

(** An entry of the Bedrock catalogue. *)
Record KnowledgeBase : Type := mkKB {
  knowledgeBaseId : string;
  kb_entry_name : string
}.

(** The event of an invocation: a JSON object whose keys may be absent. *)
Record Event : Type := mkEvent {
  ev_kb_batch : option (list string);
  ev_start_index : option Z;
  ev_days_threshold : option Z;
  ev_job_id : option string
}.

(** The dictionary [{"success": [...], "failed": [...]}]. *)
Record BatchResult : Type := mkBatch {
  success : list string;
  failed : list string
}.

(** The dictionary [{"statusCode": ..., "body": ...}]. *)
Record Response : Type := mkResponse {
  statusCode : Z;
  body : string
}.

(** Effects accepted by a service, oldest first. *)
Inductive Effect : Type :=
| Dropped (table : string)            (* a committed DROP TABLE IF EXISTS *)
| KbDeleted (kb_id : string)          (* delete_knowledge_base *)
| DsDeleted (kb_id ds_id : string)    (* delete_data_source *)
| Slept (seconds : Z)                 (* time.sleep *)
| Invoked (payload : Event)           (* lambda_client.invoke, InvocationType Event *)
| LoggedBatch (r : BatchResult).      (* logger.info of a batch result *)

(** What the services hold.  Timestamps are microseconds since
    0001-01-01T00:00:00, the resolution and origin of [datetime]; a
    [created_at] cell is [None] when it is SQL NULL. *)
Record World : Type := mkWorld {
  tick : nat;                                  (* service calls made so far *)
  secret : list (string * string);             (* the parsed SecretString *)
  tables : gmap string (list (option Z));      (* vector tables: the created_at column *)
  catalogue : list string;                     (* kb_name column of the catalogue table *)
  pending : list string;                       (* DROPs executed, not yet committed *)
  status_store : gmap string Item;             (* the DynamoDB table *)
  kb_pages : list (list KnowledgeBase);        (* the Bedrock catalogue, as paginated *)
  trace : list Effect
}.

(** The environment: which service call fails, and what the clock shows.
    Both are indexed by the number of service calls made before. *)
Record Env : Type := mkEnv {
  faults : nat -> option Exn;
  clock : nat -> Z
}.

Definition set_tick (n : nat) (w : World) : World :=
  mkWorld n (secret w) (tables w) (catalogue w) (pending w) (status_store w)
          (kb_pages w) (trace w).
Definition set_tables (t : gmap string (list (option Z))) (w : World) : World :=
  mkWorld (tick w) (secret w) t (catalogue w) (pending w) (status_store w)
          (kb_pages w) (trace w).
Definition set_pending (p : list string) (w : World) : World :=
  mkWorld (tick w) (secret w) (tables w) (catalogue w) p (status_store w)
          (kb_pages w) (trace w).
Definition set_status_store (s : gmap string Item) (w : World) : World :=
  mkWorld (tick w) (secret w) (tables w) (catalogue w) (pending w) s
          (kb_pages w) (trace w).
Definition set_kb_pages (p : list (list KnowledgeBase)) (w : World) : World :=
  mkWorld (tick w) (secret w) (tables w) (catalogue w) (pending w) (status_store w)
          p (trace w).
Definition emit (e : Effect) (w : World) : World :=
  mkWorld (tick w) (secret w) (tables w) (catalogue w) (pending w) (status_store w)
          (kb_pages w) (trace w ++ [e]).

(** ** The monad *)

Definition M (A : Type) : Type := World -> Result A * World.

Definition ret {A} (a : A) : M A := fun w => (Ok a, w).

Definition bind {A B} (m : M A) (k : A -> M B) : M B := fun w =>
  match m w with
  | (Ok a, w') => k a w'
  | (Raise e, w') => (Raise e, w')
  end.

Definition raise {A} (e : Exn) : M A := fun w => (Raise e, w).

(** [try: m except ClientError: h] *)
Definition try_client {A} (m : M A) (h : M A) : M A := fun w =>
  match m w with
  | (Raise ClientError, w') => h w'
  | r => r
  end.

(** [try: m except Exception: h] *)
Definition try_all {A} (m : M A) (h : M A) : M A := fun w =>
  match m w with
  | (Raise _, w') => h w'
  | r => r
  end.

#[global] Instance M_ret : MRet M := @ret.
#[global] Instance M_bind : MBind M := fun A B k m => bind m k.

(** ** Python built-ins used by the module *)

(** [s.startswith(p)] *)
Fixpoint startswith (p s : string) : bool :=
  match p, s with
  | EmptyString, _ => true
  | String a p', String b s' => if Ascii.eqb a b then startswith p' s' else false
  | String _ _, EmptyString => false
  end.

(** [s[n:]] for [0 <= n] *)
Fixpoint str_from (n : nat) (s : string) : string :=
  match n, s with
  | O, _ => s
  | S n', String _ s' => str_from n' s'
  | S _, EmptyString => EmptyString
  end.

(** An index or slice bound [i] of a sequence of length [len], as Python
    normalises it for slicing: a negative bound counts from the end, and
    the result is clamped to [0, len]. *)
Definition slice_bound (len i : Z) : Z :=
  if i <? 0 then Z.max 0 (len + i) else Z.min i len.

(** [l[a:b]] *)
Definition py_slice {A} (l : list A) (a b : Z) : list A :=
  let len := Z.of_nat (length l) in
  let lo := slice_bound len a in
  let hi := slice_bound len b in
  firstn (Z.to_nat (hi - lo)) (skipn (Z.to_nat lo) l).

(** [l[i]]: a negative index counts from the end; out of range raises
    IndexError, which is an [Exception]. *)
Definition py_index {A} (l : list A) (i : Z) : Result A :=
  let len := Z.of_nat (length l) in
  let j := if i <? 0 then len + i else i in
  if (0 <=? j) && (j <? len)
  then match nth_error l (Z.to_nat j) with
       | Some x => Ok x
       | None => Raise OtherError
       end
  else Raise OtherError.

(** [range(a, b)] *)
Definition py_range (a b : Z) : list Z :=
  map (fun k => a + Z.of_nat k) (seq 0 (Z.to_nat (b - a))).

(** [range(0, n, step)]: [ValueError] when the step is zero, empty when the
    step is negative (here [0 <= n]). *)
Definition py_range_step (n step : Z) : Result (list Z) :=
  if step =? 0 then Raise ValueError
  else if step <? 0 then Ok []
  else Ok (map (fun k => Z.of_nat k * step)
               (seq 0 (Z.to_nat ((n + step - 1) / step)))).

(** [datetime] and [timedelta] *)
Definition us_per_day : Z := 86400000000.

(** [datetime.max] is 9999-12-31T23:59:59.999999, day 3652059 of the
    calendar. *)
Definition datetime_max : Z := 3652059 * us_per_day - 1.

(** [timedelta(days=d)]: OverflowError beyond 999999999 days. *)
Definition timedelta_days (d : Z) : Result Z :=
  if Z.abs d <=? 999999999 then Ok (d * us_per_day) else Raise OtherError.

(** [t - delta] on a [datetime]: OverflowError outside [datetime.min,
    datetime.max]. *)
Definition datetime_sub (t delta : Z) : Result Z :=
  let r := t - delta in
  if (0 <=? r) && (r <=? datetime_max) then Ok r else Raise OtherError.

(** [d.get(k)] on the parsed secret *)
Fixpoint dict_get (k : string) (d : list (string * string)) : option string :=
  match d with
  | [] => None
  | (k', v) :: d' => if String.eqb k k' then Some v else dict_get k d'
  end.

(** The rendering of a value of type [Optional[str]] inside an f-string. *)
Definition fstr (o : option string) : string :=
  match o with
  | Some s => s
  | None => "None"%string
  end.

(** [s.replace(old, new)] for a non-empty [old]: the occurrences of [old]
    are found from the left and do not overlap.  [skip] counts the
    characters of the occurrence just replaced that are still to pass. *)
Fixpoint replace_from (old new : string) (skip : nat) (s : string) : string :=
  match s with
  | EmptyString => EmptyString
  | String c rest =>
      match skip with
      | S k => replace_from old new k rest
      | O =>
          if startswith old s
          then (new +:+ replace_from old new (String.length old - 1) rest)%string
          else String c (replace_from old new 0 rest)
      end
  end.

Definition py_replace (old new s : string) : string := replace_from old new 0 s.

(** [json.dumps] of a flat object whose values are strings, with the
    default separators and [ensure_ascii]; a character of the string is a
    code point below 256. *)
Definition quote : ascii := ascii_of_nat 34.
Definition backslash : ascii := ascii_of_nat 92.

Definition hex_digit (n : nat) : ascii :=
  if (n <? 10)%nat then ascii_of_nat (48 + n) else ascii_of_nat (87 + n).

Definition json_escape_char (c : ascii) : string :=
  let n := nat_of_ascii c in
  if (n =? 34)%nat then String backslash (String quote EmptyString)
  else if (n =? 92)%nat then String backslash (String backslash EmptyString)
  else if (n =? 10)%nat then String backslash "n"
  else if (n =? 13)%nat then String backslash "r"
  else if (n =? 9)%nat then String backslash "t"
  else if (n =? 8)%nat then String backslash "b"
  else if (n =? 12)%nat then String backslash "f"
  else if ((n <? 32) || (126 <? n))%nat
       then String backslash
              ("u00" +:+ String (hex_digit (n / 16)) (String (hex_digit (n mod 16)) EmptyString))
       else String c EmptyString.

Fixpoint json_escape (s : string) : string :=
  match s with
  | EmptyString => EmptyString
  | String c s' => json_escape_char c +:+ json_escape s'
  end.

Definition json_string (s : string) : string :=
  String quote (json_escape s) +:+ String quote EmptyString.

Fixpoint json_members (kvs : list (string * string)) : string :=
  match kvs with
  | [] => EmptyString
  | [(k, v)] => json_string k +:+ ": " +:+ json_string v
  | (k, v) :: rest => json_string k +:+ ": " +:+ json_string v +:+ ", " +:+ json_members rest
  end.

Definition json_dumps (kvs : list (string * string)) : string :=
  "{" +:+ json_members kvs +:+ "}".

(** ** Names, classes and calls *)

(** The two classes whose instances the module passes around. *)
Inductive Class : Type :=
| BedrockDBAgent
| VectorTableDeleter.

(** The names the module binds at its top level (lines 10 to 43 and 202),
    with the two configuration names that [VectorTableDeleter.__init__]
    reads. *)
Definition module_names : list string :=
  ["json"; "os"; "boto3"; "ClientError"; "time"; "uuid"; "logging"; "HTTPStatus";
   "datetime"; "timedelta"; "timezone"; "Dict"; "List"; "Optional"; "psycopg2";
   "logger"; "KBS_PER_BATCH"; "MAX_RETRIES"; "RETRY_DELAY"; "DEFAULT_DAYS_THRESHOLD";
   "DELAY_BETWEEN_KBS"; "KB_PREFIX"; "DYNAMODB_TABLE_NAME"; "REGION";
   "DATABASE_NAME"; "DATABASE_SECRET_NAME";
   "DateTimeEncoder"; "BedrockDBAgent"; "VectorTableDeleter"]%string.

(** The strings among them, at the defaults of [os.getenv]. *)
Definition module_strings : list (string * string) :=
  [("KB_PREFIX", "kb_"); ("DYNAMODB_TABLE_NAME", "cleanup-status-checker");
   ("REGION", "ap-south-1")]%string.

(** The methods each class declares, with the number of parameters of the
    declaration, [self] included where it is declared, and the number of
    those that have a default.  The second [update_cleanup_status]
    replaces the first. *)
Definition methods (c : Class) : list (string * (nat * nat)) :=
  match c with
  | BedrockDBAgent =>
      [("__init__", (2, 0)); ("list_knowledge_bases", (1, 0));
       ("get_kb_and_ds_id", (2, 0)); ("get_cleanup_status", (2, 0));
       ("delete_ds", (3, 0)); ("delete_kb", (2, 0)); ("remove_kb_and_ds_id", (2, 0));
       ("update_cleanup_status", (4, 1));
       ("check_and_retry_kb_deletion", (5, 0))]%string%nat
  | VectorTableDeleter =>
      [("__init__", (1, 0)); ("get_secrets", (1, 0)); ("delete_vector_table", (2, 0));
       ("is_kb_older_than_threshold", (2, 0)); ("extract_re_id", (1, 0));
       ("find_outdated_kbs", (2, 0)); ("cleanup", (2, 0));
       ("process_kb_batch_asynchronously", (5, 0)); ("lambda_handler", (2, 0));
       ("_handle_async_process", (4, 0)); ("_handle_single_kb_cleanup", (4, 0));
       ("_handle_bulk_cleanup", (4, 0)); ("_serialize_kb_batch", (2, 0));
       ("_serialize_re_id_batch", (2, 0)); ("_accepted_response", (4, 0));
       ("_failed_async_start_response", (0, 0)); ("_no_kbs_to_cleanup_response", (0, 0));
       ("_internal_error_response", (0, 0)); ("_success_response", (1, 0));
       ("_failed_response", (1, 0))]%string%nat
  end.

(** The attributes [__init__] assigns to an instance. *)
Definition attributes (c : Class) : list string :=
  match c with
  | BedrockDBAgent => ["bedrock_client"; "dynamodb_client"; "dynamodb_table"]%string
  | VectorTableDeleter => ["database_name"; "SECRET_NAME"; "region"]%string
  end.

Fixpoint assoc {A} (k : string) (l : list (string * A)) : option A :=
  match l with
  | [] => None
  | (k', v) :: l' => if String.eqb k k' then Some v else assoc k l'
  end.

(** A name read in a function that neither binds it nor takes it as a
    parameter: NameError when the module does not bind it either. *)
Definition global_name (name : string) : M unit :=
  if existsb (String.eqb name) module_names then mret tt else raise OtherError.

(** The same for a name that is used as a string. *)
Definition global_str (name : string) : M string :=
  global_name name ;;
  match assoc name module_strings with
  | Some s => mret s
  | None => raise OtherError
  end.

(** A local variable read before the statement that assigns it:
    UnboundLocalError. *)
Definition unbound_local {A} (name : string) : M A := raise OtherError.

(** [Name()]: the name is looked up in the module and has to be one of its
    two classes, whose [__init__] reads names of the module in turn. *)
Definition construct (name : string) : M Class :=
  global_name name ;;
  if String.eqb name "BedrockDBAgent" then
    global_name "boto3" ;; global_name "DYNAMODB_TABLE_NAME" ;; mret BedrockDBAgent
  else if String.eqb name "VectorTableDeleter" then
    global_name "DATABASE_NAME" ;; global_name "DATABASE_SECRET_NAME" ;;
    global_name "REGION" ;; mret VectorTableDeleter
  else raise OtherError.

(** [obj.attr]: AttributeError when neither [__init__] nor the class
    provides it. *)
Definition get_attr (obj : Class) (attr : string) : M unit :=
  if existsb (String.eqb attr) (attributes obj ++ map fst (methods obj))
  then mret tt
  else raise OtherError.

(** [obj.method(a1, ..., an)] with [nargs] positional arguments, where
    [body] is the body of the method for these arguments: AttributeError
    when the class of [obj] declares no such method, TypeError when the
    declaration does not take the object and [nargs] arguments. *)
Definition bound_call {A} (obj : Class) (method : string) (nargs : nat) (body : M A) : M A :=
  match assoc method (methods obj) with
  | None => raise OtherError
  | Some (declared, defaults) =>
      if (declared - defaults <=? S nargs)%nat && (S nargs <=? declared)%nat
      then body
      else raise OtherError
  end.

(** ** Update expressions of DynamoDB

    The grammar of the [SET] action with plain assignments,
    [SET path = :value, path = :value ...]; the service answers a text it
    cannot parse with a ValidationException, which is a [ClientError]. *)

Definition flush (cur : string) : list string :=
  match cur with
  | EmptyString => []
  | _ => [cur]
  end.

(** The words of an expression; a comma is a word of its own. *)
Fixpoint words_from (s cur : string) : list string :=
  match s with
  | EmptyString => flush cur
  | String c rest =>
      if Ascii.eqb c " " then flush cur ++ words_from rest EmptyString
      else if Ascii.eqb c "," then flush cur ++ ","%string :: words_from rest EmptyString
      else words_from rest (cur +:+ String c EmptyString)
  end.

Definition words (s : string) : list string := words_from s EmptyString.

(** [path = :value] once, or several times with commas between. *)
Fixpoint assignments (ws : list string) : option (list (string * string)) :=
  match ws with
  | path :: eq :: value :: rest =>
      if String.eqb eq "=" && startswith ":" value
      then match rest with
           | [] => Some [(path, value)]
           | sep :: rest' =>
               if String.eqb sep ","
               then cons (path, value) <$> assignments rest'
               else None
           end
      else None
  | _ => None
  end.

Definition parse_update (expression : string) : option (list (string * string)) :=
  match words expression with
  | keyword :: ws =>
      if String.eqb keyword "set" || String.eqb keyword "SET" then assignments ws else None
  | [] => None
  end.

(** The attribute of an item that a path names. *)
Definition set_attribute (path value : string) (it : Item) : Item :=
  if String.eqb path "KBID" then mkItem (Some value) (DSID it) (CleanupStatus it) (CleanupComment it)
  else if String.eqb path "DSID" then mkItem (KBID it) (Some value) (CleanupStatus it) (CleanupComment it)
  else if String.eqb path "CleanupStatus" then mkItem (KBID it) (DSID it) (Some value) (CleanupComment it)
  else if String.eqb path "CleanupComment" then mkItem (KBID it) (DSID it) (CleanupStatus it) (Some value)
  else it.

(** The assignments carried out on an item; [None] when a placeholder has
    no value. *)
Fixpoint assign (actions : list (string * string)) (values : list (string * string))
    (it : Item) : option Item :=
  match actions with
  | [] => Some it
  | (path, placeholder) :: rest =>
      match assoc placeholder values with
      | Some v => assign rest values (set_attribute path v it)
      | None => None
      end
  end.

(** The values [{"S": v}] of a request: botocore refuses a request in which
    one of them is [None]. *)
Fixpoint string_values (values : list (string * option string))
  : option (list (string * string)) :=
  match values with
  | [] => Some []
  | (k, Some v) :: rest => cons (k, v) <$> string_values rest
  | (_, None) :: _ => None
  end.

(** ** The module *)

(** Lift a pure result into the monad. *)
Definition lift {A} (r : Result A) : M A := fun w => (r, w).

(** [event[key]] *)
Definition event_get {A} (key : string) (field : option A) : M A :=
  match field with
  | Some v => mret v
  | None => raise (KeyError key)
  end.

(** [for x in xs: body x] *)
Fixpoint for_each {A} (xs : list A) (body : A -> M unit) : M unit :=
  match xs with
  | [] => mret tt
  | x :: xs' => body x ;; for_each xs' body
  end.

Section Program.

Context (env : Env).

(** [self.batch_size]: the module never assigns it; its configuration reads
    [KBS_PER_BATCH] (default 10) for the purpose. *)
Context (batch_size : Z).

(** *** Service calls

    A service call is counted, fails with the exception the environment
    schedules for it, and otherwise acts on the world. *)
Definition service {A} (act : M A) : M A := fun w =>
  let w' := set_tick (S (tick w)) w in
  match faults env (tick w) with
  | Some e => (Raise e, w')
  | None => act w'
  end.

(** [secrets_manager_client.get_secret_value] followed by [json.loads] *)
Definition sm_get_secret_value : M (list (string * string)) :=
  service (fun w => (Ok (secret w), w)).

(** [psycopg2.connect]: a new connection has no statement pending. *)
Definition pg_connect (host port user password : option string) : M unit :=
  service (fun w => (Ok tt, set_pending [] w)).

(** [cursor.execute("DROP TABLE IF EXISTS " + name)]: the text after the
    keywords is taken for the name of one table, which it is when it is a
    plain identifier; a text that PostgreSQL refuses is a call that
    fails. *)
Definition pg_execute_drop (name : string) : M unit :=
  service (fun w => (Ok tt, set_pending (pending w ++ [name]) w)).

Definition commit_drop (w : World) (name : string) : World :=
  emit (Dropped name) (set_tables (delete name (tables w)) w).

(** [conn.commit()] *)
Definition pg_commit : M unit :=
  service (fun w => (Ok tt, set_pending [] (fold_left commit_drop (pending w) w))).

(** [cursor.close()] and [conn.close()] *)
Definition pg_close : M unit := service (mret tt).

(** [cursor.execute("SELECT created_at FROM " + name)]: the rows of the
    table, an error when there is no such table. *)
Definition pg_select_created_at (name : string) : M (list (option Z)) :=
  service (fun w =>
    match tables w !! name with
    | Some rows => (Ok rows, w)
    | None => (Raise OtherError, w)
    end).

(** [cursor.execute("SELECT kb_name FROM ...")] and [fetchall()] *)
Definition pg_select_kb_names : M (list string) :=
  service (fun w => (Ok (catalogue w), w)).

(** [dynamodb_client.get_item] *)
Definition ddb_get_item (key : string) : M (option Item) :=
  service (fun w => (Ok (status_store w !! key), w)).

(** [dynamodb_client.update_item(Key=..., UpdateExpression=...,
    ExpressionAttributeValues=...)]: botocore validates the values before
    it sends anything (ParamValidationError, which is not a
    [ClientError]); the service parses the expression and carries it out
    on the item of the key, which it creates when there is none. *)
Definition ddb_update_item (key expression : string)
    (values : list (string * option string)) : M unit :=
  match string_values values with
  | None => raise OtherError
  | Some vs =>
      service (fun w =>
        let it := default empty_item (status_store w !! key) in
        match parse_update expression ≫= (fun actions => assign actions vs it) with
        | Some it' => (Ok tt, set_status_store (<[key := it']> (status_store w)) w)
        | None => (Raise ClientError, w)
        end)
  end.

(** [dynamodb_client.delete_item] *)
Definition ddb_delete_item (key : string) : M unit :=
  service (fun w => (Ok tt, set_status_store (delete key (status_store w)) w)).

Definition remove_kb (kb_id : string) (pages : list (list KnowledgeBase))
  : list (list KnowledgeBase) :=
  map (List.filter (fun kb => negb (String.eqb (knowledgeBaseId kb) kb_id))) pages.

(** [bedrock_client.delete_knowledge_base] *)
Definition bedrock_delete_knowledge_base (kb_id : string) : M unit :=
  service (fun w => (Ok tt, emit (KbDeleted kb_id) (set_kb_pages (remove_kb kb_id (kb_pages w)) w))).

(** [bedrock_client.delete_data_source] *)
Definition bedrock_delete_data_source (kb_id ds_id : string) : M unit :=
  service (fun w => (Ok tt, emit (DsDeleted kb_id ds_id) w)).

(** [lambda_client.invoke(InvocationType="Event", Payload=json.dumps(payload))] *)
Definition lambda_invoke (payload : Event) : M unit :=
  service (fun w => (Ok tt, emit (Invoked payload) w)).

(** [time.sleep(seconds)] *)
Definition time_sleep (seconds : Z) : M unit := fun w =>
  if seconds <? 0 then (Raise ValueError, w) else (Ok tt, emit (Slept seconds) w).

(** [datetime.now()] *)
Definition datetime_now : M Z := fun w => (Ok (clock env (tick w)), w).

(** [logger.info(f"Batch result: {batch_result}")] *)
Definition log_batch (r : BatchResult) : M unit := fun w => (Ok tt, emit (LoggedBatch r) w).

(** *** class BedrockDBAgent *)

(** The [while True] loop of [list_knowledge_bases]: one request per page,
    the response carrying a [NextToken] exactly when pages remain.  The
    first request carries [NextToken=None]; a client library that refuses
    the parameter makes the call number 0 fail with an exception that is
    not a [ClientError]. *)
Fixpoint list_pages (pages : list (list KnowledgeBase)) (knowledge_bases : list KnowledgeBase)
  : M (list KnowledgeBase) :=
  service (mret tt) ;;
  match pages with
  | [] => mret knowledge_bases
  | p :: rest =>
      match rest with
      | [] => mret (knowledge_bases ++ p)
      | _ :: _ => list_pages rest (knowledge_bases ++ p)
      end
  end.

Definition list_knowledge_bases : M (list KnowledgeBase) :=
  try_client (fun w => list_pages (kb_pages w) [] w) (mret []).

(** [item.get(attr).get("S")]: AttributeError when the attribute is absent. *)
Definition attr_S (a : option string) : M string :=
  match a with
  | Some s => mret s
  | None => raise OtherError
  end.

Definition get_kb_and_ds_id (ReverseEnggID : string) : M (option string * option string) :=
  try_client
    (item ← ddb_get_item ReverseEnggID;
     match item with
     | Some it =>
         kb ← attr_S (KBID it);
         ds ← attr_S (DSID it);
         mret (Some kb, Some ds)
     | None => mret (None, None)
     end)
    (mret (None, None)).

Definition get_cleanup_status (ReverseEnggID : string) : M (option string) :=
  try_client
    (item ← ddb_get_item ReverseEnggID;
     match item with
     | Some it => s ← attr_S (CleanupStatus it); mret (Some s)
     | None => mret None
     end)
    (mret None).

(** The class defines [update_cleanup_status] twice; this is the second
    definition, with the comment, which replaces the first.  Its expression
    is the text of line 176. *)
Definition UpdateExpression : string :=
  "set CleanupStatus = :status, CleanupComment = :comment if CleanupComment is null ".

Definition update_cleanup_status (ReverseEnggID status : string) (comment : option string)
  : M unit :=
  try_client
    (ddb_update_item ReverseEnggID UpdateExpression
                     [(":status"%string, Some status); (":comment"%string, comment)])
    (mret tt).

Definition delete_ds (kb_id ds_id : string) : M unit :=
  try_client (bedrock_delete_data_source kb_id ds_id) (mret tt).

Definition delete_kb (kb_id : string) : M unit :=
  try_client (bedrock_delete_knowledge_base kb_id) (mret tt).

Definition remove_kb_and_ds_id (ReverseEnggID : string) : M unit :=
  try_client (ddb_delete_item ReverseEnggID) (mret tt).

(** The body of [for i in range(max_retries)]: [return True] leaves the
    function from inside the inner [try]; its handler sleeps and goes on
    with the next round. *)
Fixpoint retry_loop (n : nat) (kb_id : string) (delay : Z) : M bool :=
  match n with
  | O => mret false
  | S n' =>
      try_client (delete_kb kb_id ;; mret true)
                 (time_sleep delay ;; retry_loop n' kb_id delay)
  end.

(** The defaults of the source are [max_retries=3] and
    [delay=DELAY_BETWEEN_KBS]; [ReverseEnggID] is not used. *)
Definition check_and_retry_kb_deletion (kb_id : string) (max_retries delay : Z)
    (ReverseEnggID : string) : M bool :=
  try_client (retry_loop (Z.to_nat max_retries) kb_id delay) (mret false).

(** *** class VectorTableDeleter *)

Definition get_secrets : M (option (list (string * string))) :=
  try_client (s ← sm_get_secret_value; mret (Some s)) (mret None).

(** [not secrets]: [None] and the empty dictionary are false. *)
Definition not_secrets (secrets : option (list (string * string))) : bool :=
  match secrets with
  | None | Some [] => true
  | Some (_ :: _) => false
  end.

Definition connect_with (secrets : option (list (string * string))) : M unit :=
  let s := default [] secrets in
  pg_connect (dict_get "host" s) (dict_get "port" s) (dict_get "user" s)
             (dict_get "password" s).

(** The argument is what [extract_re_id] returned, rendered into the
    statement by an f-string. *)
Definition delete_vector_table (ReverseEnggID : option string) : M bool :=
  try_all
    (secrets ← get_secrets;
     if not_secrets secrets then mret false
     else
       connect_with secrets ;;
       pg_execute_drop (fstr ReverseEnggID) ;;
       pg_commit ;;
       pg_close ;;
       pg_close ;;
       mret true)
    (mret false).

(** [created_at < threshold]: TypeError when the cell is NULL. *)
Definition before (created_at : option Z) (threshold : Z) : M bool :=
  match created_at with
  | Some c => mret (c <? threshold)
  | None => raise OtherError
  end.

(** The function is declared with the parameters [updated_at] and [days]
    only: [self] (line 260) and [ReverseEnggID] (line 278) are neither
    parameters nor locals, so they are looked up in the module, which
    binds neither. *)
Definition is_kb_older_than_threshold (updated_at : string) (days : Z) : M bool :=
  try_all
    (global_name "self" ;;
     secrets ← get_secrets;
     if not_secrets secrets then mret false
     else
       connect_with secrets ;;
       ReverseEnggID ← global_str "ReverseEnggID";
       rows ← pg_select_created_at ReverseEnggID;
       match rows with
       | [] => mret false
       | created_at :: _ =>
           now ← datetime_now;
           delta ← lift (timedelta_days days);
           threshold ← lift (datetime_sub now delta);
           before created_at threshold
       end)
    (mret false).

(** The handler [except Exception: return None] is the second branch; no
    operation of the body raises on a string. *)
Definition extract_re_id (kb_name : string) : option string :=
  match (if startswith "kb_" kb_name
         then Ok (str_from 3 kb_name)
         else Ok kb_name) with
  | Ok re_id => Some re_id
  | Raise _ => None
  end.

(** [for kb_name in result: if self.is_kb_older_than_threshold(kb_name,
    days_threshold): outdated_kbs.append(kb_name)]: the call passes the
    object and two arguments. *)
Fixpoint outdated_loop (result : list string) (days_threshold : Z) (outdated_kbs : list string)
  : M (list string) :=
  match result with
  | [] => mret outdated_kbs
  | kb_name :: rest =>
      older ← bound_call VectorTableDeleter "is_kb_older_than_threshold" 2
                (is_kb_older_than_threshold kb_name days_threshold);
      outdated_loop rest days_threshold
                    (if older : bool then outdated_kbs ++ [kb_name] else outdated_kbs)
  end.

(** Line 327 reads [self.dynamodb_table] for the text of the query. *)
Definition find_outdated_kbs (days_threshold : Z) : M (list string) :=
  try_all
    (secrets ← get_secrets;
     if not_secrets secrets then mret []
     else
       connect_with secrets ;;
       get_attr VectorTableDeleter "dynamodb_table" ;;
       result ← pg_select_kb_names;
       match result with
       | [] => mret []
       | _ :: _ => outdated_loop result days_threshold []
       end)
    (mret []).

(** [self.delete_kb(kb_name)] is a call on the [VectorTableDeleter]. *)
Definition cleanup (days_threshold : Z) : M (list string) :=
  try_all
    (outdated_kbs ← find_outdated_kbs days_threshold;
     for_each outdated_kbs (fun kb_name =>
       bound_call VectorTableDeleter "delete_kb" 1 (delete_kb kb_name)) ;;
     mret outdated_kbs)
    (mret []).

Definition process_kb_batch_asynchronously (kb_batch : list string) (start_index : Z)
    (days_threshold : Z) (job_id : string) : M unit :=
  starts ← lift (py_range_step (Z.of_nat (length kb_batch)) batch_size);
  for_each starts (fun i =>
    let batch := py_slice kb_batch i (i + batch_size) in
    lambda_invoke (mkEvent (Some batch) (Some i) (Some days_threshold) (Some job_id))).

(** Lines 380 to 388, for the agent that line 379 binds.  The block has
    no branch for an event without [kb_batch] and no [return]. *)
Definition handle_event (bedrock_agent : Class) (event : Event) : M (option Response) :=
  vector_deleter ← construct "VectorTableDeleter";
  match ev_kb_batch event with
  | Some kb_batch =>
      start_index ← event_get "start_index" (ev_start_index event);
      days_threshold ← event_get "days_threshold" (ev_days_threshold event);
      job_id ← event_get "job_id" (ev_job_id event);
      for_each kb_batch (fun kb_name =>
        re_id ← bound_call bedrock_agent "extract_re_id" 1
                  (mret (extract_re_id kb_name) : M (option string));
        bound_call vector_deleter "delete_vector_table" 1 (delete_vector_table re_id) ;;
        mret tt) ;;
      mret None
  | None => mret None
  end.

(** The statements of the [try] block, lines 378 to 388: the text has no
    handler after them, and the embedding adds none. *)
Definition lambda_handler (event : Event) : M (option Response) :=
  bedrock_agent ← construct "BedRockKBAgent";
  handle_event bedrock_agent event.

(** [for i in range(current_index, end_index)] of [_handle_async_process] *)
Fixpoint async_loop (bedrock_agent vector_deleter : Class) (kbs_to_process : list string)
    (indices : list Z) (batch_result : BatchResult) : M BatchResult :=
  match indices with
  | [] => mret batch_result
  | i :: rest =>
      kb_name ← lift (py_index kbs_to_process i);
      re_id ← bound_call bedrock_agent "extract_re_id" 1
                (mret (extract_re_id kb_name) : M (option string));
      deleted ← bound_call vector_deleter "delete_vector_table" 1 (delete_vector_table re_id);
      async_loop bedrock_agent vector_deleter kbs_to_process rest
        (if deleted : bool
         then mkBatch (success batch_result ++ [kb_name]) (failed batch_result)
         else mkBatch (success batch_result) (failed batch_result ++ [kb_name]))
  end.

(** The first statement looks up the method on [bedrock_agent] and then
    reads the local [days_threshold], which the third statement assigns.
    The function returns nothing; the batch result goes to the log. *)
Definition _handle_async_process (event : Event) (bedrock_agent vector_deleter : Class)
  : M unit :=
  kbs_to_process ←
    (get_attr bedrock_agent "find_outdated_kbs" ;;
     days_threshold ← unbound_local "days_threshold";
     bound_call bedrock_agent "find_outdated_kbs" 1 (find_outdated_kbs days_threshold));
  current_index ← event_get "start_index" (ev_start_index event);
  days_threshold ← event_get "days_threshold" (ev_days_threshold event);
  job_id ← event_get "job_id" (ev_job_id event);
  let len := Z.of_nat (length kbs_to_process) in
  let end_index := Z.min (current_index + batch_size) len in
  batch_result ← async_loop bedrock_agent vector_deleter kbs_to_process
                            (py_range current_index end_index) (mkBatch [] []);
  log_batch batch_result ;;
  if end_index <? len
  then process_kb_batch_asynchronously kbs_to_process end_index days_threshold job_id
  else mret tt.

Definition _handle_single_kb_cleanup (kb_name : string) (bedrock_agent vector_deleter : Class)
  : M bool :=
  re_id ← bound_call bedrock_agent "extract_re_id" 1
            (mret (extract_re_id kb_name) : M (option string));
  deleted ← bound_call vector_deleter "delete_vector_table" 1 (delete_vector_table re_id);
  if deleted : bool then mret true else mret false.

(** [for kb_name in kb_batch] of [_handle_bulk_cleanup] *)
Fixpoint bulk_loop (bedrock_agent vector_deleter : Class) (kb_batch : list string)
    (batch_result : BatchResult) : M BatchResult :=
  match kb_batch with
  | [] => mret batch_result
  | kb_name :: rest =>
      re_id ← bound_call bedrock_agent "extract_re_id" 1
                (mret (extract_re_id kb_name) : M (option string));
      deleted ← bound_call vector_deleter "delete_vector_table" 1 (delete_vector_table re_id);
      bulk_loop bedrock_agent vector_deleter rest
        (if deleted : bool
         then mkBatch (success batch_result ++ [kb_name]) (failed batch_result)
         else mkBatch (success batch_result) (failed batch_result ++ [kb_name]))
  end.

Definition _handle_bulk_cleanup (kb_batch : list string) (bedrock_agent vector_deleter : Class)
  : M BatchResult :=
  batch_result ← bulk_loop bedrock_agent vector_deleter kb_batch (mkBatch [] []);
  log_batch batch_result ;;
  mret batch_result.

Definition _serialize_re_id_batch (re_id_batch : list string) : list string :=
  map (fun re_id : string => ("kb_" +:+ re_id)%string) re_id_batch.

End Program.

Definition _serialize_kb_batch (kb_batch : list string) : list string :=
  map (fun kb : string => py_replace "kb_" EmptyString kb) kb_batch.

Definition _failed_async_start_response : Response :=
  mkResponse 500 (json_dumps [("message", "Failed to start async process")]).

Definition _no_kbs_to_cleanup_response : Response :=
  mkResponse 200 (json_dumps [("message", "No knowledge bases to cleanup")]).

Definition _internal_error_response : Response :=
  mkResponse 500 (json_dumps [("message", "Internal error")]).

Definition _success_response (message : string) : Response :=
  mkResponse 200 (json_dumps [("message", message)]).

Definition _failed_response (message : string) : Response :=
  mkResponse 500 (json_dumps [("message", message)]).

(** * Vocabulary of the properties *)

(** The comment the status store holds for an id, if any. *)
Definition stored_comment (w : World) (id : string) : option string :=
  status_store w !! id ≫= CleanupComment.

(** A sequence of status updates, each with its key, status and comment. *)
Definition apply_updates (env : Env) (updates : list (string * string * option string))
  : M unit :=
  for_each updates (fun u => update_cleanup_status env u.1.1 u.1.2 u.2).

(** A computation that leaves an observation [f] of the world as it was. *)
Definition preserves {A X} (f : World -> X) (m : M A) : Prop :=
  forall w, f (snd (m w)) = f w.

(** None of the [count] service calls from call number [from] on fails. *)
Definition no_fault (env : Env) (from count : nat) : Prop :=
  forall j, (j < count)%nat -> faults env (from + j) = None.

(** No service call fails, and the clock shows [now] throughout. *)
Definition fair (env : Env) (now : Z) : Prop :=
  (forall n, faults env n = None) /\ (forall n, clock env n = now).

(** [sub] occurs in [s]. *)
Definition occurs (sub s : string) : Prop :=
  exists pre post : string, s = (pre +:+ sub +:+ post)%string.

(** The requests to delete a knowledge base that were accepted, oldest
    first. *)
Definition kb_deleted (w : World) : list string :=
  omap (fun e => match e with KbDeleted k => Some k | _ => None end) (trace w).

(** The delays slept, oldest first. *)
Definition slept (w : World) : list Z :=
  omap (fun e => match e with Slept d => Some d | _ => None end) (trace w).

(** A plain identifier of PostgreSQL as the statement is written: a
    lower-case letter or an underscore, followed by lower-case letters,
    digits and underscores, at most 63 characters in all.  The text
    [DROP TABLE IF EXISTS] followed by such an identifier names the one
    table of that name. *)
Definition is_lower (c : ascii) : bool :=
  let n := nat_of_ascii c in ((97 <=? n) && (n <=? 122))%nat.

Definition is_digit (c : ascii) : bool :=
  let n := nat_of_ascii c in ((48 <=? n) && (n <=? 57))%nat.

Definition is_underscore (c : ascii) : bool := (nat_of_ascii c =? 95)%nat.

Fixpoint identifier_tail (s : string) : bool :=
  match s with
  | EmptyString => true
  | String c rest => (is_lower c || is_digit c || is_underscore c) && identifier_tail rest
  end.

Definition plain_identifier (s : string) : bool :=
  match s with
  | EmptyString => false
  | String c rest =>
      (is_lower c || is_underscore c) && identifier_tail rest
      && (String.length s <=? 63)%nat
  end.

(** * Scenarios *)

Definition day (n : Z) : Z := n * us_per_day.

(** The clock stands at the start of day 736100. *)
Definition today : Z := day 736100.

(** No service call fails. *)
Definition calm : Env := mkEnv (fun _ => None) (fun _ => today).

(** Every service call fails with a [ClientError]. *)
Definition stormy : Env := mkEnv (fun _ => Some ClientError) (fun _ => today).

(** Only the service call number [n] fails, with the exception [e]. *)
Definition fails_at (n : nat) (e : Exn) : Env :=
  mkEnv (fun k => if Nat.eqb k n then Some e else None) (fun _ => today).

Definition credentials : list (string * string) :=
  [("host", "db.internal"); ("port", "5432"); ("user", "cleanup"); ("password", "s3cret")]%string.

(** A table whose only row was created [age] days ago. *)
Definition aged (age : Z) : list (option Z) := [Some (today - day age)].

Definition world_of (names : list string) (tabs : list (string * list (option Z)))
    (store : gmap string Item) : World :=
  mkWorld 0 credentials (list_to_map tabs) names [] store [] [].

(** One outdated knowledge base whose cleanup the store records as done. *)
Definition w_succeeded : World :=
  world_of ["kb_a"]%string
           [("kb_a", aged 45); ("a", aged 45)]%string
           {[ "a"%string := mkItem (Some "KB1"%string) (Some "DS1"%string)
                                   (Some "Succeeded"%string) (Some "deleted"%string) ]}.

(** Seven outdated knowledge bases. *)
Definition w_seven : World :=
  world_of ["kb_1"; "kb_2"; "kb_3"; "kb_4"; "kb_5"; "kb_6"; "kb_7"]%string
           [("kb_1", aged 45); ("kb_2", aged 45); ("kb_3", aged 45); ("kb_4", aged 45);
            ("kb_5", aged 45); ("kb_6", aged 45); ("kb_7", aged 45)]%string ∅.

(** Two outdated knowledge bases. *)
Definition w_two : World :=
  world_of ["kb_a"; "kb_b"]%string [("kb_a", aged 45); ("kb_b", aged 60)]%string ∅.

(** Three knowledge bases of 45, 20 and 60 days. *)
Definition w_ages : World :=
  world_of ["kb_a"; "kb_b"; "kb_c"]%string
           [("kb_a", aged 45); ("kb_b", aged 20); ("kb_c", aged 60)]%string ∅.

(** An empty catalogue. *)
Definition w_empty : World := world_of [] [] ∅.

Definition new_job (days : Z) : Event := mkEvent None None (Some days) None.

Definition continuation (batch : list string) (start days : Z) (job : string) : Event :=
  mkEvent (Some batch) (Some start) (Some days) (Some job).

(** The start indices of the payloads dispatched, oldest first. *)
Definition dispatched (w : World) : list Event :=
  omap (fun e => match e with Invoked p => Some p | _ => None end) (trace w).

(** The tables dropped, oldest first. *)
Definition dropped (w : World) : list string :=
  omap (fun e => match e with Dropped t => Some t | _ => None end) (trace w).

(** * Reasoning about computations *)

Lemma bind_run {A B} (m : M A) (k : A -> M B) (w : World) :
  (m ≫= k) w = match m w with
               | (Ok a, w') => k a w'
               | (Raise e, w') => (Raise e, w')
               end.
Proof. reflexivity. Qed.

Lemma service_ok {A} env (act : M A) (w : World) :
  faults env (tick w) = None -> service env act w = act (set_tick (S (tick w)) w).
Proof. intros H. unfold service. rewrite H. reflexivity. Qed.

Lemma service_fault {A} env (act : M A) (w : World) (e : Exn) :
  faults env (tick w) = Some e -> service env act w = (Raise e, set_tick (S (tick w)) w).
Proof. intros H. unfold service. rewrite H. reflexivity. Qed.

Lemma raise_run {A B} (e : Exn) (k : A -> M B) (w : World) :
  (raise e ≫= k) w = (Raise e, w).
Proof. reflexivity. Qed.

(** * Names and calls *)

(** Line 379: the module binds no [BedRockKBAgent]. *)
Lemma agent_class_is_not_bound (w : World) :
  construct "BedRockKBAgent" w = (Raise OtherError, w).
Proof. reflexivity. Qed.

Lemma deleter_is_constructed (w : World) :
  construct "VectorTableDeleter" w = (Ok VectorTableDeleter, w).
Proof. reflexivity. Qed.

(** Lines 260 and 278: neither [self] nor [ReverseEnggID] is a name of the
    module. *)
Lemma self_is_not_bound (w : World) : global_name "self" w = (Raise OtherError, w).
Proof. reflexivity. Qed.

(** Lines 387, 402, 415 and 424: [BedrockDBAgent] declares no
    [extract_re_id], and the one of [VectorTableDeleter] takes the name
    only. *)
Lemma extract_re_id_call_raises {A} (obj : Class) (body : M A) (w : World) :
  bound_call obj "extract_re_id" 1 body w = (Raise OtherError, w).
Proof. destruct obj; reflexivity. Qed.

(** Line 335: three arguments for the two parameters of the age check. *)
Lemma age_check_call_raises {A} (body : M A) (w : World) :
  bound_call VectorTableDeleter "is_kb_older_than_threshold" 2 body w
  = (Raise OtherError, w).
Proof. reflexivity. Qed.

(** Line 349: [delete_kb] is a method of the other class. *)
Lemma delete_kb_call_raises {A} (body : M A) (w : World) :
  bound_call VectorTableDeleter "delete_kb" 1 body w = (Raise OtherError, w).
Proof. reflexivity. Qed.

(** Line 327: [__init__] of [VectorTableDeleter] assigns no
    [dynamodb_table]. *)
Lemma dynamodb_table_is_not_set (w : World) :
  get_attr VectorTableDeleter "dynamodb_table" w = (Raise OtherError, w).
Proof. reflexivity. Qed.

(** Line 176: the text after the second assignment is no part of an
    update expression. *)
Lemma update_expression_is_refused : parse_update UpdateExpression = None.
Proof. reflexivity. Qed.

(** * What a computation leaves alone *)

Lemma preserves_ret {A X} (f : World -> X) (a : A) : preserves f (mret a : M A).
Proof. intros w; reflexivity. Qed.

Lemma preserves_raise {A X} (f : World -> X) (e : Exn) : preserves f (raise e : M A).
Proof. intros w; reflexivity. Qed.

Lemma preserves_lift {A X} (f : World -> X) (r : Result A) : preserves f (lift r).
Proof. intros w; reflexivity. Qed.

Lemma preserves_bind {A B X} (f : World -> X) (m : M A) (k : A -> M B) :
  preserves f m -> (forall a, preserves f (k a)) -> preserves f (m ≫= k).
Proof.
  intros Hm Hk w. rewrite bind_run. specialize (Hm w).
  destruct (m w) as [[a | e] w']; simpl in *; [| exact Hm].
  rewrite (Hk a w'). exact Hm.
Qed.

Lemma preserves_try_client {A X} (f : World -> X) (m h : M A) :
  preserves f m -> preserves f h -> preserves f (try_client m h).
Proof.
  intros Hm Hh w. unfold try_client. specialize (Hm w).
  destruct (m w) as [[a | []] w']; simpl in *; try exact Hm.
  rewrite (Hh w'). exact Hm.
Qed.

Lemma preserves_try_all {A X} (f : World -> X) (m h : M A) :
  preserves f m -> preserves f h -> preserves f (try_all m h).
Proof.
  intros Hm Hh w. unfold try_all. specialize (Hm w).
  destruct (m w) as [[a | e] w']; simpl in *; try exact Hm.
  rewrite (Hh w'). exact Hm.
Qed.

Lemma preserves_service {A X} env (f : World -> X) (act : M A) :
  (forall n w, f (set_tick n w) = f w) ->
  preserves f act -> preserves f (service env act).
Proof.
  intros Ht Ha w. unfold service.
  destruct (faults env (tick w)); simpl; [apply Ht |].
  rewrite (Ha (set_tick (S (tick w)) w)). apply Ht.
Qed.

Lemma preserves_for_each {A X} (f : World -> X) (xs : list A) (body : A -> M unit) :
  (forall x, preserves f (body x)) -> preserves f (for_each xs body).
Proof.
  intros Hb. induction xs as [| x xs IH]; simpl.
  - apply preserves_ret.
  - apply preserves_bind; [apply Hb | intros _; exact IH].
Qed.

Lemma preserves_global_name {X} (f : World -> X) (name : string) :
  preserves f (global_name name).
Proof.
  unfold global_name.
  destruct (existsb (String.eqb name) module_names); [apply preserves_ret | apply preserves_raise].
Qed.

Lemma preserves_global_str {X} (f : World -> X) (name : string) :
  preserves f (global_str name).
Proof.
  unfold global_str.
  apply preserves_bind; [apply preserves_global_name | intros _].
  destruct (assoc name module_strings); [apply preserves_ret | apply preserves_raise].
Qed.

Lemma preserves_get_attr {X} (f : World -> X) (obj : Class) (attr : string) :
  preserves f (get_attr obj attr).
Proof.
  unfold get_attr.
  destruct (existsb (String.eqb attr) (attributes obj ++ map fst (methods obj)));
    [apply preserves_ret | apply preserves_raise].
Qed.

Lemma preserves_bound_call {A X} (f : World -> X) (obj : Class) (method : string)
    (nargs : nat) (body : M A) :
  preserves f body -> preserves f (bound_call obj method nargs body).
Proof.
  intros Hb. unfold bound_call.
  destruct (assoc method (methods obj)) as [[declared defaults] |]; [| apply preserves_raise].
  destruct ((declared - defaults <=? S nargs)%nat && (S nargs <=? declared)%nat);
    [exact Hb | apply preserves_raise].
Qed.

(** * Extracting the id from a name *)

Lemma startswith_spec (p s : string) :
  startswith p s = true <-> exists rest, s = (p +:+ rest)%string.
Proof.
  revert s. induction p as [| a p IH]; intros s; simpl.
  - split; [intros _; exists s; reflexivity | reflexivity].
  - destruct s as [| b s]; simpl.
    + split; [discriminate | intros [rest H]; discriminate H].
    + destruct (Ascii.eqb_spec a b) as [-> | Hne].
      * rewrite IH. split; intros [rest H]; exists rest.
        -- rewrite H. reflexivity.
        -- injection H as H. exact H.
      * split; [discriminate |].
        intros [rest H]. injection H as Hab _. congruence.
Qed.

(** C10.  For every knowledge-base name, [extract_re_id] returns the name
    without its leading "kb_" when the name starts with that prefix, and
    returns the name itself (a value, neither an error nor [None]) when
    the name does not start with it. *)
Theorem extract_re_id_strips_prefix :
  (forall rest : string, extract_re_id ("kb_" +:+ rest) = Some rest) /\
  (forall kb_name : string,
     (forall rest : string, kb_name <> ("kb_" +:+ rest)%string) ->
     extract_re_id kb_name = Some kb_name).
Proof.
  split.
  - intros rest. reflexivity.
  - intros kb_name Hno. unfold extract_re_id.
    destruct (startswith "kb_" kb_name) eqn:E; [| reflexivity].
    apply startswith_spec in E as [rest ->].
    exfalso. apply (Hno rest). reflexivity.
Qed.

Lemma extract_re_id_strips_prefix_witness :
  extract_re_id "kb_42" = Some "42"%string /\
  extract_re_id "index7" = Some "index7"%string.
Proof.
  split.
  - apply (proj1 extract_re_id_strips_prefix "42"%string).
  - apply (proj2 extract_re_id_strips_prefix "index7"%string).
    intros rest H. discriminate H.
Defined.

(** * The status store *)

(** An update without a comment is refused before it is sent, and any
    other by the service, whose refusal the function logs: the call
    returns, and nothing is written. *)
Lemma update_cleanup_status_run env (id status : string) (comment : option string)
    (w : World) :
  update_cleanup_status env id status comment w
  = match comment with
    | None => (Raise OtherError, w)
    | Some _ =>
        match faults env (tick w) with
        | None | Some ClientError => (Ok tt, set_tick (S (tick w)) w)
        | Some e => (Raise e, set_tick (S (tick w)) w)
        end
    end.
Proof.
  unfold update_cleanup_status, try_client, ddb_update_item.
  destruct comment as [c |]; [| reflexivity].
  cbn [string_values fmap option_fmap option_map].
  unfold service. rewrite update_expression_is_refused.
  destruct (faults env (tick w)) as [[] |]; reflexivity.
Qed.

Lemma preserves_update_cleanup_status {X} env (f : World -> X) (id status : string)
    (comment : option string) :
  (forall n w, f (set_tick n w) = f w) ->
  preserves f (update_cleanup_status env id status comment).
Proof.
  intros Ht w. rewrite update_cleanup_status_run.
  destruct comment; [| reflexivity].
  destruct (faults env (tick w)) as [[] |]; apply Ht.
Qed.

(** C6, where it fails.  The expression of [update_cleanup_status] is not
    one the service accepts, so no update stores anything: the status
    store is the same after any update and after any sequence of updates,
    and an id for which two comments were set in a row holds the comment
    it held before, which is none when it held none. *)
Theorem comment_is_never_stored env :
  (forall (id status : string) (comment : option string) (w : World),
     status_store (snd (update_cleanup_status env id status comment w)) = status_store w) /\
  (forall (updates : list (string * string * option string)) (w : World),
     status_store (snd (apply_updates env updates w)) = status_store w) /\
  (forall (id s1 c1 s2 c2 : string) (w : World),
     let w1 := snd (update_cleanup_status env id s1 (Some c1) w) in
     let w2 := snd (update_cleanup_status env id s2 (Some c2) w1) in
     stored_comment w1 id = stored_comment w id /\
     stored_comment w2 id = stored_comment w id).
Proof.
  assert (H1 : forall id status comment,
             preserves status_store (update_cleanup_status env id status comment))
    by (intros; apply preserves_update_cleanup_status; reflexivity).
  split; [intros; apply H1 |]. split.
  - intros updates. unfold apply_updates.
    apply preserves_for_each. intros u. apply H1.
  - intros id s1 c1 s2 c2 w w1 w2. unfold stored_comment, w2, w1.
    rewrite !(H1 _ _ _ _). split; reflexivity.
Qed.

(** The first comment of a new id is not there after a second one was
    set. *)
Example first_comment_is_lost :
  let w1 := snd (update_cleanup_status calm "x" "InProgress" (Some "first"%string) w_empty) in
  let w2 := snd (update_cleanup_status calm "x" "Failed" (Some "second"%string) w1) in
  fst (update_cleanup_status calm "x" "InProgress" (Some "first"%string) w_empty) = Ok tt /\
  stored_comment w1 "x" = None /\ stored_comment w2 "x" = None /\
  fst (get_cleanup_status calm "x" w2) = Ok None.
Proof. vm_compute. repeat split. Qed.

(** * The entry point and the executor *)

Lemma lambda_handler_run env (event : Event) (w : World) :
  lambda_handler env event w = (Raise OtherError, w).
Proof. reflexivity. Qed.

(** What follows line 379, for an agent of either class: the keys are read,
    and the first name of the batch stops the loop. *)
Lemma handle_event_run env (bedrock_agent : Class) (event : Event) (w : World) :
  handle_event env bedrock_agent event w
  = (match ev_kb_batch event with
     | None => Ok None
     | Some kb_batch =>
         match ev_start_index event, ev_days_threshold event, ev_job_id event with
         | None, _, _ => Raise (KeyError "start_index")
         | Some _, None, _ => Raise (KeyError "days_threshold")
         | Some _, Some _, None => Raise (KeyError "job_id")
         | Some _, Some _, Some _ =>
             match kb_batch with
             | [] => Ok None
             | _ :: _ => Raise OtherError
             end
         end
     end, w).
Proof.
  unfold handle_event. rewrite bind_run, deleter_is_constructed.
  destruct (ev_kb_batch event) as [[| kb rest] |],
           (ev_start_index event), (ev_days_threshold event), (ev_job_id event);
    try reflexivity.
  destruct bedrock_agent; reflexivity.
Qed.

Lemma handle_async_process_run env (batch_size : Z) (event : Event)
    (bedrock_agent vector_deleter : Class) (w : World) :
  _handle_async_process env batch_size event bedrock_agent vector_deleter w
  = (Raise OtherError, w).
Proof. destruct bedrock_agent; reflexivity. Qed.

Lemma bulk_loop_run env (bedrock_agent vector_deleter : Class) (kb_name : string)
    (rest : list string) (acc : BatchResult) (w : World) :
  bulk_loop env bedrock_agent vector_deleter (kb_name :: rest) acc w = (Raise OtherError, w).
Proof. simpl. rewrite bind_run, extract_re_id_call_raises. reflexivity. Qed.

(** C9, where it fails.  Line 379 raises NameError for every event, before
    any service is called: [lambda_handler] computes no response, and an
    exception is all that a handler, had the [try] one, would get from
    it.  What follows that line computes no response either: for an
    agent of either class it leaves the world as it was and never returns
    the response for an empty candidate set, and for an event without
    [kb_batch] it runs to its end and returns [None]. *)
Theorem new_job_gets_no_response env (event : Event) (w : World) :
  lambda_handler env event w = (Raise OtherError, w) /\
  (forall handler : M (option Response),
     try_all (lambda_handler env event) handler w = handler w) /\
  (forall bedrock_agent : Class,
     snd (handle_event env bedrock_agent event w) = w /\
     fst (handle_event env bedrock_agent event w) <> Ok (Some _no_kbs_to_cleanup_response) /\
     (ev_kb_batch event = None ->
      fst (handle_event env bedrock_agent event w) = Ok None)).
Proof.
  split; [apply lambda_handler_run |].
  split; [intros handler; unfold try_all; rewrite lambda_handler_run; reflexivity |].
  intros bedrock_agent. rewrite handle_event_run. cbn [fst snd].
  split; [reflexivity |]. split.
  - destruct (ev_kb_batch event) as [[| kb rest] |],
             (ev_start_index event), (ev_days_threshold event), (ev_job_id event);
      discriminate.
  - intros ->. reflexivity.
Qed.

(** The response the module prepares for an empty candidate set. *)
Example no_kbs_to_cleanup_response_shape :
  statusCode _no_kbs_to_cleanup_response = 200 /\
  body _no_kbs_to_cleanup_response
  = String "{" (String quote ("message"
      +:+ String quote (": "
      +:+ String quote ("No knowledge bases to cleanup"
      +:+ String quote "}"))))%string.
Proof. vm_compute. split; reflexivity. Qed.

(** Scenario D: a trigger for a new job over an empty catalogue. *)
Example scenario_d :
  lambda_handler calm (new_job 30) w_empty = (Raise OtherError, w_empty) /\
  handle_event calm BedrockDBAgent (new_job 30) w_empty = (Ok None, w_empty).
Proof. split; reflexivity. Qed.

(** C7, where it fails.  [bedrock_agent.extract_re_id(kb_name)] raises for
    an agent of either class, and neither loop has a handler: for a window
    that is not empty [_handle_bulk_cleanup] raises at its first name,
    before any deletion is attempted and without a batch result, as does
    [_handle_single_kb_cleanup]; [_handle_async_process] raises before
    its loop.  Only the empty window gets its (empty) result. *)
Theorem batch_raises_at_the_first_name env (batch_size : Z) (kb_name : string)
    (rest : list string) (event : Event) (bedrock_agent vector_deleter : Class) (w : World) :
  _handle_bulk_cleanup env (kb_name :: rest) bedrock_agent vector_deleter w
  = (Raise OtherError, w) /\
  _handle_single_kb_cleanup env kb_name bedrock_agent vector_deleter w
  = (Raise OtherError, w) /\
  _handle_async_process env batch_size event bedrock_agent vector_deleter w
  = (Raise OtherError, w) /\
  _handle_bulk_cleanup env [] bedrock_agent vector_deleter w
  = (Ok (mkBatch [] []), emit (LoggedBatch (mkBatch [] [])) w).
Proof.
  split; [| split; [| split]].
  - unfold _handle_bulk_cleanup. rewrite bind_run, bulk_loop_run. reflexivity.
  - unfold _handle_single_kb_cleanup. rewrite bind_run, extract_re_id_call_raises.
    reflexivity.
  - apply handle_async_process_run.
  - reflexivity.
Qed.

(** A window of two names, the agent and the deleter as line 380 makes
    them, and no failing service. *)
Example window_of_two :
  _handle_bulk_cleanup calm ["kb_a"; "kb_b"]%string VectorTableDeleter VectorTableDeleter w_two
  = (Raise OtherError, w_two).
Proof. reflexivity. Qed.


(** A payload for a resource that the store records as Succeeded,
    delivered twice. *)
Example succeeded_resource_is_kept :
  let payload := continuation ["kb_a"]%string 0 30 "job-1" in
  let w2 := snd (handle_event calm BedrockDBAgent payload
                   (snd (handle_event calm BedrockDBAgent payload w_succeeded))) in
  get_cleanup_status calm "a" w_succeeded = (Ok (Some "Succeeded"%string), set_tick 1 w_succeeded) /\
  tables w2 = tables w_succeeded /\ dropped w2 = [].
Proof. repeat split. Qed.

(** * Retrying a deletion *)

(** C5, where it fails.  [delete_kb] handles the [ClientError] of a refused
    deletion itself, so the loop of [check_and_retry_kb_deletion] sees its
    first attempt return: the function answers [True] after one request,
    without a retry or a delay, and nothing is written to the status
    store. *)
Theorem refused_deletion_is_not_retried env (kb_id : string) (max_retries delay : Z)
    (ReverseEnggID : string) (w : World) :
  0 < max_retries ->
  faults env (tick w) = Some ClientError ->
  check_and_retry_kb_deletion env kb_id max_retries delay ReverseEnggID w
  = (Ok true, set_tick (S (tick w)) w).
Proof.
  intros Hn Hf. unfold check_and_retry_kb_deletion.
  destruct (Z.to_nat max_retries) as [| n] eqn:E; [lia |].
  simpl. unfold try_client, delete_kb, try_client, bedrock_delete_knowledge_base.
  rewrite bind_run, (service_fault env _ w ClientError Hf). reflexivity.
Qed.

Lemma refused_deletion_is_not_retried_witness :
  check_and_retry_kb_deletion stormy "KB1" 3 5 "a" w_succeeded
  = (Ok true, set_tick 1 w_succeeded).
Proof.
  apply (refused_deletion_is_not_retried stormy "KB1" 3 5 "a" w_succeeded).
  - lia.
  - reflexivity.
Defined.

(** * Discovery *)

(** The age check, called with the two arguments of its declaration. *)
Lemma is_kb_older_than_threshold_run env (updated_at : string) (days : Z) (w : World) :
  is_kb_older_than_threshold env updated_at days w = (Ok false, w).
Proof. reflexivity. Qed.

(** Discovery gets the credentials and connects; what it does next raises,
    and its handler returns the empty list. *)
Lemma find_outdated_kbs_run env (days : Z) (w : World) :
  exists w', find_outdated_kbs env days w = (Ok [], w') /\
             (tick w < tick w' <= 2 + tick w)%nat.
Proof.
  unfold find_outdated_kbs, try_all, get_secrets, try_client, sm_get_secret_value,
    connect_with, pg_connect.
  rewrite !bind_run. unfold service at 1.
  destruct (faults env (tick w)) as [e0 |].
  { destruct e0; simpl; eexists; (split; [reflexivity |]); cbn [tick set_tick set_pending]; lia. }
  simpl. destruct (secret w) as [| kv sec]; simpl.
  { eexists; (split; [reflexivity |]); cbn [tick set_tick set_pending]; lia. }
  rewrite bind_run. unfold service at 1. simpl.
  destruct (faults env (S (tick w))) as [e1 |]; simpl;
    eexists; (split; [reflexivity |]); cbn [tick set_tick set_pending]; lia.
Qed.

(** The loop over the rows, were it reached: the call of the age check
    raises at the first row. *)
Lemma outdated_loop_run env (kb_name : string) (rest : list string) (days : Z)
    (acc : list string) (w : World) :
  outdated_loop env (kb_name :: rest) days acc w = (Raise OtherError, w).
Proof. reflexivity. Qed.

(** C4, where it fails.  The age check, declared without [self], answers
    [False] for every input without asking the database, and discovery,
    which calls it with one argument too many and reads an attribute its
    class does not set, returns the empty sequence whatever the catalogue
    holds: a resource older than the threshold is not included. *)
Theorem old_resource_is_not_included env (days : Z) (w : World) :
  (forall updated_at : string,
     is_kb_older_than_threshold env updated_at days w = (Ok false, w)) /\
  (forall (kb_name : string) (rest acc : list string),
     outdated_loop env (kb_name :: rest) days acc w = (Raise OtherError, w)) /\
  fst (find_outdated_kbs env days w) = Ok [].
Proof.
  split; [intros; apply is_kb_older_than_threshold_run |].
  split; [intros; apply outdated_loop_run |].
  destruct (find_outdated_kbs_run env days w) as (w' & -> & _). reflexivity.
Qed.

(** Scenario A: three knowledge bases of 45, 20 and 60 days, a threshold
    of 30 days, and no failing service. *)
Example scenario_a :
  fst (find_outdated_kbs calm 30 w_ages) = Ok [] /\
  tables w_ages !! "kb_a"%string = Some (aged 45) /\
  today - day 45 < today - day 30 /\
  fst (is_kb_older_than_threshold calm "kb_a" 30 w_ages) = Ok false.
Proof. repeat split. Qed.


(** The credentials are refused, and the connection is. *)
Example discovery_without_credentials :
  fst (find_outdated_kbs (fails_at 0 ClientError) 30 w_two) = Ok [] /\
  fst (find_outdated_kbs (fails_at 0 OtherError) 30 w_two) = Ok [] /\
  fst (find_outdated_kbs (fails_at 1 OtherError) 30 w_two) = Ok [].
Proof. repeat split. Qed.

(** Observations that the call counter and the pending statements do not
    show in are left alone by everything that only reads the database. *)
Section Readers.

Context (env : Env) {X : Type} (f : World -> X).
Hypothesis f_tick : forall n w, f (set_tick n w) = f w.
Hypothesis f_pending : forall p w, f (set_pending p w) = f w.

Lemma reader_get_secrets : preserves f (get_secrets env).
Proof.
  unfold get_secrets, sm_get_secret_value.
  apply preserves_try_client; [| apply preserves_ret].
  apply preserves_bind; [| intros s; apply preserves_ret].
  apply preserves_service; [exact f_tick | intros w; reflexivity].
Qed.

Lemma reader_connect_with secrets : preserves f (connect_with env secrets).
Proof.
  unfold connect_with, pg_connect.
  apply preserves_service; [exact f_tick | intros w; apply f_pending].
Qed.

Lemma reader_is_kb_older_than_threshold updated_at days :
  preserves f (is_kb_older_than_threshold env updated_at days).
Proof.
  unfold is_kb_older_than_threshold.
  apply preserves_try_all; [| apply preserves_ret].
  apply preserves_bind; [apply preserves_global_name | intros _].
  apply preserves_bind; [apply reader_get_secrets | intros secrets].
  destruct (not_secrets secrets); [apply preserves_ret |].
  apply preserves_bind; [apply reader_connect_with | intros _].
  apply preserves_bind; [apply preserves_global_str | intros name].
  apply preserves_bind.
  - unfold pg_select_created_at.
    apply preserves_service; [exact f_tick |].
    intros w. destruct (tables w !! name); reflexivity.
  - intros [| created_at rows]; [apply preserves_ret |].
    apply preserves_bind; [intros w; reflexivity | intros now].
    apply preserves_bind; [apply preserves_lift | intros delta].
    apply preserves_bind; [apply preserves_lift | intros threshold].
    destruct created_at; [apply preserves_ret | apply preserves_raise].
Qed.

Lemma reader_outdated_loop result days acc :
  preserves f (outdated_loop env result days acc).
Proof.
  revert acc. induction result as [| kb result IH]; intros acc; simpl.
  - apply preserves_ret.
  - apply preserves_bind; [| intros older; apply IH].
    apply preserves_bound_call, reader_is_kb_older_than_threshold.
Qed.

Lemma reader_find_outdated_kbs days : preserves f (find_outdated_kbs env days).
Proof.
  unfold find_outdated_kbs.
  apply preserves_try_all; [| apply preserves_ret].
  apply preserves_bind; [apply reader_get_secrets | intros secrets].
  destruct (not_secrets secrets); [apply preserves_ret |].
  apply preserves_bind; [apply reader_connect_with | intros _].
  apply preserves_bind; [apply preserves_get_attr | intros _].
  apply preserves_bind.
  - unfold pg_select_kb_names.
    apply preserves_service; [exact f_tick | intros w; reflexivity].
  - intros [| kb result]; [apply preserves_ret | apply reader_outdated_loop].
Qed.

(** Dropping a table shows in neither. *)
Hypothesis f_commit : forall name w, f (commit_drop w name) = f w.

Lemma commit_drops_preserve (names : list string) (w : World) :
  f (fold_left commit_drop names w) = f w.
Proof.
  revert w. induction names as [| n names IH]; intros w; simpl; [reflexivity |].
  rewrite IH. apply f_commit.
Qed.

Lemma bystander_delete_vector_table id : preserves f (delete_vector_table env id).
Proof.
  unfold delete_vector_table.
  apply preserves_try_all; [| apply preserves_ret].
  apply preserves_bind; [apply reader_get_secrets | intros secrets].
  destruct (not_secrets secrets); [apply preserves_ret |].
  apply preserves_bind; [apply reader_connect_with | intros _].
  apply preserves_bind; [| intros _].
  { unfold pg_execute_drop.
    apply preserves_service; [exact f_tick | intros w; apply f_pending]. }
  apply preserves_bind; [| intros _].
  { unfold pg_commit.
    apply preserves_service; [exact f_tick |].
    intros w. simpl. rewrite f_pending. apply commit_drops_preserve. }
  apply preserves_bind; [| intros _].
  { apply preserves_service; [exact f_tick | apply preserves_ret]. }
  apply preserves_bind; [| intros _; apply preserves_ret].
  apply preserves_service; [exact f_tick | apply preserves_ret].
Qed.

End Readers.

(** X1.  Discovery only reads: whatever fails, [find_outdated_kbs] leaves
    the vector tables, the catalogue, the status store and the trace of
    effects as they were. *)
Theorem discovery_only_reads env (days : Z) (w : World) :
  let w' := snd (find_outdated_kbs env days w) in
  tables w' = tables w /\
  catalogue w' = catalogue w /\
  status_store w' = status_store w /\
  trace w' = trace w.
Proof.
  repeat split.
  - apply (reader_find_outdated_kbs env tables); reflexivity.
  - apply (reader_find_outdated_kbs env catalogue); reflexivity.
  - apply (reader_find_outdated_kbs env status_store); reflexivity.
  - apply (reader_find_outdated_kbs env trace); reflexivity.
Qed.

(** * Dropping a vector table *)

Lemma no_fault_nil env (n : nat) : no_fault env n 0.
Proof. intros j Hj. lia. Qed.

Lemma no_fault_cons env (n k : nat) :
  faults env n = None -> no_fault env (S n) k -> no_fault env n (S k).
Proof.
  intros H0 Hk [| j] Hj.
  - rewrite Nat.add_0_r. exact H0.
  - replace (n + S j)%nat with (S n + j)%nat by lia. apply Hk. lia.
Qed.

Lemma no_fault_step env (n k : nat) :
  no_fault env n (S k) -> faults env n = None /\ no_fault env (S n) k.
Proof.
  intros H. split.
  - rewrite <- (Nat.add_0_r n). apply H. lia.
  - intros j Hj. replace (S n + j)%nat with (n + S j)%nat by lia. apply H. lia.
Qed.

Lemma no_fault_weaken env (n k k' : nat) :
  (k' <= k)%nat -> no_fault env n k -> no_fault env n k'.
Proof. intros Hle H j Hj. apply H. lia. Qed.

Lemma fault_within env (n k : nat) :
  faults env n <> None -> (exists j, (j < S k)%nat /\ faults env (n + j) <> None).
Proof. intros H. exists 0%nat. rewrite Nat.add_0_r. split; [lia | exact H]. Qed.

Lemma fault_later env (n k : nat) :
  (exists j, (j < k)%nat /\ faults env (S n + j) <> None) ->
  (exists j, (j < S k)%nat /\ faults env (n + j) <> None).
Proof.
  intros (j & Hj & H). exists (S j).
  replace (n + S j)%nat with (S n + j)%nat by lia. split; [lia | exact H].
Qed.

(** The three ways [delete_vector_table] can go: it gives up before the
    commit, it fails after the commit, or it goes through. *)
Lemma delete_vector_table_cases env (id : option string) (w : World) :
  let r := delete_vector_table env id w in
  (fst r = Ok false /\ tables (snd r) = tables w /\ trace (snd r) = trace w /\
   (secret w = [] \/ exists k, (k < 4)%nat /\ faults env (tick w + k) <> None)) \/
  (fst r = Ok false /\
   tables (snd r) = delete (fstr id) (tables w) /\
   trace (snd r) = trace w ++ [Dropped (fstr id)] /\
   secret w <> [] /\ no_fault env (tick w) 4 /\
   (exists k, (k < 2)%nat /\ faults env (4 + tick w + k) <> None)) \/
  (fst r = Ok true /\
   tables (snd r) = delete (fstr id) (tables w) /\
   trace (snd r) = trace w ++ [Dropped (fstr id)] /\
   tick (snd r) = (6 + tick w)%nat /\
   secret w <> [] /\ no_fault env (tick w) 6).
Proof.
  intros r. subst r.
  destruct (delete_vector_table env id w) as [res w'] eqn:E.
  cbn [fst snd]. revert E.
  unfold delete_vector_table, try_all, get_secrets, try_client, sm_get_secret_value,
    connect_with, pg_connect, pg_execute_drop, pg_commit, pg_close.
  rewrite !bind_run. unfold service at 1.
  destruct (faults env (tick w)) as [e0 |] eqn:F0.
  { destruct e0; simpl; intros E; injection E as <- <-; left;
      (repeat split; right; apply fault_within; congruence). }
  simpl. destruct (secret w) as [| kv sec] eqn:Es; simpl.
  { intros E; injection E as <- <-. left. repeat split. left. reflexivity. }
  rewrite bind_run. unfold service at 1. simpl.
  destruct (faults env (S (tick w))) as [e1 |] eqn:F1; simpl.
  { intros E; injection E as <- <-. left. repeat split. right.
    apply fault_later, fault_within. congruence. }
  rewrite bind_run. unfold service at 1. simpl.
  destruct (faults env (S (S (tick w)))) as [e2 |] eqn:F2; simpl.
  { intros E; injection E as <- <-. left. repeat split. right.
    apply fault_later, fault_later, fault_within. congruence. }
  rewrite bind_run. unfold service at 1. simpl.
  destruct (faults env (S (S (S (tick w))))) as [e3 |] eqn:F3; simpl.
  { intros E; injection E as <- <-. left. repeat split. right.
    apply fault_later, fault_later, fault_later, fault_within. congruence. }
  assert (H4 : no_fault env (tick w) 4)
    by (repeat (apply no_fault_cons; [assumption |]); apply no_fault_nil).
  rewrite bind_run. unfold service at 1. simpl.
  destruct (faults env (S (S (S (S (tick w)))))) as [e4 |] eqn:F4; simpl.
  { intros E; injection E as <- <-. right. left.
    repeat split; try assumption; try discriminate.
    exists 0%nat. split; [lia |]. rewrite Nat.add_0_r. simpl. congruence. }
  rewrite bind_run. unfold service at 1. simpl.
  destruct (faults env (S (S (S (S (S (tick w))))))) as [e5 |] eqn:F5; simpl.
  { intros E; injection E as <- <-. right. left.
    repeat split; try assumption; try discriminate.
    exists 1%nat. split; [lia |]. rewrite Nat.add_1_r. simpl. congruence. }
  intros E; injection E as <- <-. right. right. repeat split; try discriminate.
  repeat (apply no_fault_cons; [assumption |]); apply no_fault_nil.
Qed.

Lemma no_fault_has_none env (n k j : nat) :
  no_fault env n k -> (j < k)%nat -> faults env (n + j) <> None -> False.
Proof. intros H Hj Hf. apply Hf, H, Hj. Qed.

(** X2.  An answer [True] of [delete_vector_table] is to be trusted: for
    an id that is a plain identifier it means, in every environment, that
    all six service calls went through and that exactly the table of that
    name was dropped. *)
Theorem delete_true_means_dropped env (id : string) (w : World) :
  plain_identifier id = true ->
  fst (delete_vector_table env (Some id) w) = Ok true ->
  let w' := snd (delete_vector_table env (Some id) w) in
  tables w' = delete id (tables w) /\
  dropped w' = dropped w ++ [id] /\
  tick w' = (6 + tick w)%nat /\
  no_fault env (tick w) 6.
Proof.
  intros _ Ht w'. subst w'.
  destruct (delete_vector_table_cases env (Some id) w)
    as [(Hr & _) | [(Hr & _) | (_ & Htab & Htr & Htick & _ & Hnf)]];
    try congruence.
  repeat split; try assumption.
  unfold dropped. rewrite Htr, omap_app. reflexivity.
Qed.

Lemma delete_true_means_dropped_witness :
  tables (snd (delete_vector_table calm (Some "a"%string) w_succeeded))
  = delete "a"%string (tables w_succeeded).
Proof.
  apply (delete_true_means_dropped calm "a"%string w_succeeded); reflexivity.
Defined.

(** X3.  When no call fails and the secret is not empty,
    [delete_vector_table] answers [True]; and what a second call for the
    same id leaves of the tables is what the first left: the drop is
    idempotent. *)
Theorem delete_twice_is_delete_once env (id : option string) (w : World) :
  no_fault env (tick w) 12 ->
  secret w <> [] ->
  let once := delete_vector_table env id w in
  let twice := delete_vector_table env id (snd once) in
  fst once = Ok true /\ fst twice = Ok true /\
  tables (snd twice) = tables (snd once) /\
  tables (snd once) !! fstr id = None.
Proof.
  intros Hnf Hs once twice.
  assert (H1 : fst once = Ok true /\ tables (snd once) = delete (fstr id) (tables w) /\
               tick (snd once) = (6 + tick w)%nat /\ secret (snd once) = secret w).
  { pose proof (bystander_delete_vector_table env secret
                  (fun _ _ => eq_refl) (fun _ _ => eq_refl) (fun _ _ => eq_refl) id w) as Hsec.
    fold once in Hsec.
    destruct (delete_vector_table_cases env id w)
      as [(_ & _ & _ & [He | (k & Hk & Hf)]) | [(_ & _ & _ & _ & _ & (k & Hk & Hf)) | H]].
    - contradiction.
    - exfalso. apply (no_fault_has_none env (tick w) 12 k Hnf); [lia | exact Hf].
    - exfalso. apply (no_fault_has_none env (tick w) 12 (4 + k) Hnf); [lia |].
      replace (tick w + (4 + k))%nat with (4 + tick w + k)%nat by lia. exact Hf.
    - fold once in H. destruct H as (Hr & Htab & _ & Htick & _). auto. }
  destruct H1 as (Hr1 & Htab1 & Htick1 & Hsec1).
  assert (H2 : fst twice = Ok true /\
               tables (snd twice) = delete (fstr id) (tables (snd once))).
  { destruct (delete_vector_table_cases env id (snd once))
      as [(_ & _ & _ & [He | (k & Hk & Hf)]) | [(_ & _ & _ & _ & _ & (k & Hk & Hf)) | H]].
    - rewrite Hsec1 in He. contradiction.
    - exfalso. apply (no_fault_has_none env (tick w) 12 (6 + k) Hnf); [lia |].
      rewrite Htick1 in Hf.
      replace (tick w + (6 + k))%nat with (6 + tick w + k)%nat by lia. exact Hf.
    - exfalso. apply (no_fault_has_none env (tick w) 12 (10 + k) Hnf); [lia |].
      rewrite Htick1 in Hf.
      replace (tick w + (10 + k))%nat with (4 + (6 + tick w) + k)%nat by lia. exact Hf.
    - fold twice in H. destruct H as (Hr & Htab & _). auto. }
  destruct H2 as (Hr2 & Htab2).
  repeat split; try assumption.
  - rewrite Htab2, Htab1. apply delete_delete_eq.
  - rewrite Htab1. apply lookup_delete_eq.
Qed.

Lemma delete_twice_is_delete_once_witness :
  tables (snd (delete_vector_table calm (Some "a"%string)
                 (snd (delete_vector_table calm (Some "a"%string) w_succeeded))))
  = tables (snd (delete_vector_table calm (Some "a"%string) w_succeeded)).
Proof.
  apply (delete_twice_is_delete_once calm (Some "a"%string) w_succeeded).
  - intros j Hj. reflexivity.
  - discriminate.
Defined.

(** X4.  A failure up to the commit (no secret, no connection, a refused
    statement or commit) makes [delete_vector_table] answer [False] and
    changes no table. *)
Theorem delete_failure_before_commit env (id : option string) (w : World) :
  secret w = [] \/ (exists k, (k < 4)%nat /\ faults env (tick w + k) <> None) ->
  let w' := snd (delete_vector_table env id w) in
  fst (delete_vector_table env id w) = Ok false /\
  tables w' = tables w /\ trace w' = trace w.
Proof.
  intros Hfail w'. subst w'.
  destruct (delete_vector_table_cases env id w)
    as [(Hr & Htab & Htr & _) | [(_ & _ & _ & Hs & Hnf & _) | (_ & _ & _ & _ & Hs & Hnf)]].
  - auto.
  - exfalso. destruct Hfail as [He | (k & Hk & Hf)]; [contradiction |].
    apply (no_fault_has_none env (tick w) 4 k Hnf Hk Hf).
  - exfalso. destruct Hfail as [He | (k & Hk & Hf)]; [contradiction |].
    apply (no_fault_has_none env (tick w) 6 k Hnf); [lia | exact Hf].
Qed.

Lemma delete_failure_before_commit_witness :
  fst (delete_vector_table (fails_at 3 OtherError) (Some "a"%string) w_succeeded) = Ok false /\
  tables (snd (delete_vector_table (fails_at 3 OtherError) (Some "a"%string) w_succeeded))
  = tables w_succeeded.
Proof.
  pose proof (delete_failure_before_commit (fails_at 3 OtherError) (Some "a"%string)
                w_succeeded) as H.
  destruct H as (H1 & H2 & _).
  - right. exists 3%nat. split; [lia | discriminate].
  - split; assumption.
Defined.



(** * The status store, read and written *)

(** X7.  An update of one id, accepted or refused, leaves the items of all
    other ids as they were, keeps the knowledge-base and data-source ids of
    the item it updates, and touches neither a table nor the trace. *)
Theorem update_touches_one_item env (id status : string) (comment : option string)
    (w : World) :
  let w' := snd (update_cleanup_status env id status comment w) in
  (forall other : string, other <> id -> status_store w' !! other = status_store w !! other) /\
  (forall it : Item, status_store w !! id = Some it ->
     exists it', status_store w' !! id = Some it' /\
                 KBID it' = KBID it /\ DSID it' = DSID it) /\
  tables w' = tables w /\ trace w' = trace w.
Proof.
  intros w'. unfold w'.
  rewrite (preserves_update_cleanup_status env status_store id status comment
             (fun _ _ => eq_refl) w),
          (preserves_update_cleanup_status env tables id status comment
             (fun _ _ => eq_refl) w),
          (preserves_update_cleanup_status env trace id status comment
             (fun _ _ => eq_refl) w).
  repeat split.
  intros it Hit. exists it. auto.
Qed.

Lemma update_touches_one_item_witness :
  status_store (snd (update_cleanup_status calm "b" "Pending" None w_succeeded)) !! "a"%string
  = status_store w_succeeded !! "a"%string.
Proof.
  apply (proj1 (update_touches_one_item calm "b" "Pending" None w_succeeded)).
  discriminate.
Defined.

(** X8.  Removing the item of an id forgets everything about it: after an
    accepted [remove_kb_and_ds_id] the status and the two ids read as
    absent, and no comment is stored. *)
Theorem removed_item_is_forgotten env (id : string) (w : World) :
  no_fault env (tick w) 2 ->
  let w1 := snd (remove_kb_and_ds_id env id w) in
  fst (get_cleanup_status env id w1) = Ok None /\
  fst (get_kb_and_ds_id env id w1) = Ok (None, None) /\
  stored_comment w1 id = None.
Proof.
  intros Hnf w1.
  apply no_fault_step in Hnf as [H0 Hnf]. apply no_fault_step in Hnf as [H1 _].
  assert (E : w1 = set_status_store (delete id (status_store w)) (set_tick (S (tick w)) w)).
  { unfold w1, remove_kb_and_ds_id, try_client, ddb_delete_item.
    rewrite service_ok by exact H0. reflexivity. }
  assert (Hgone : status_store w1 !! id = None)
    by (rewrite E; simpl; apply lookup_delete_eq).
  assert (Ht : faults env (tick w1) = None) by (rewrite E; exact H1).
  repeat split.
  - unfold get_cleanup_status, try_client, ddb_get_item.
    rewrite bind_run, service_ok by exact Ht. simpl. rewrite Hgone. reflexivity.
  - unfold get_kb_and_ds_id, try_client, ddb_get_item.
    rewrite bind_run, service_ok by exact Ht. simpl. rewrite Hgone. reflexivity.
  - unfold stored_comment. rewrite Hgone. reflexivity.
Qed.

Lemma removed_item_is_forgotten_witness :
  fst (get_cleanup_status calm "a" (snd (remove_kb_and_ds_id calm "a" w_succeeded)))
  = Ok None.
Proof.
  apply (removed_item_is_forgotten calm "a" w_succeeded).
  intros j Hj. reflexivity.
Defined.

(** X9.  An item that lacks an attribute makes the readers raise: where
    [CleanupStatus] is absent, [get_cleanup_status] raises instead of
    returning [None], and where [KBID] or [DSID] is absent,
    [get_kb_and_ds_id] raises instead of returning [(None, None)]; the
    handler of both is for [ClientError] only. *)
Theorem partial_item_raises env (id : string) (it : Item) (w : World) :
  faults env (tick w) = None ->
  status_store w !! id = Some it ->
  (CleanupStatus it = None -> fst (get_cleanup_status env id w) = Raise OtherError) /\
  (KBID it = None \/ DSID it = None -> fst (get_kb_and_ds_id env id w) = Raise OtherError).
Proof.
  intros H0 Hit. split.
  - intros Hs. unfold get_cleanup_status, try_client, ddb_get_item.
    rewrite bind_run, service_ok by exact H0. simpl. rewrite Hit, Hs. reflexivity.
  - intros Hk. unfold get_kb_and_ds_id, try_client, ddb_get_item.
    rewrite bind_run, service_ok by exact H0. simpl. rewrite Hit.
    destruct (KBID it) as [kb |], (DSID it) as [ds |]; try reflexivity.
    destruct Hk; discriminate.
Qed.

Lemma partial_item_raises_witness :
  fst (get_cleanup_status calm "a"
         (world_of [] [] {[ "a"%string := mkItem (Some "KB1"%string) None None None ]}))
  = Raise OtherError.
Proof.
  apply (partial_item_raises calm "a" (mkItem (Some "KB1"%string) None None None)
           (world_of [] [] {[ "a"%string := mkItem (Some "KB1"%string) None None None ]}));
    reflexivity.
Defined.

(** * Requests to the catalogue *)

Lemma delete_kb_run env (kb_id : string) (w : World) :
  delete_kb env kb_id w
  = match faults env (tick w) with
    | None =>
        (Ok tt, emit (KbDeleted kb_id)
                     (set_kb_pages (remove_kb kb_id (kb_pages w)) (set_tick (S (tick w)) w)))
    | Some ClientError => (Ok tt, set_tick (S (tick w)) w)
    | Some e => (Raise e, set_tick (S (tick w)) w)
    end.
Proof.
  unfold delete_kb, try_client, bedrock_delete_knowledge_base, service.
  destruct (faults env (tick w)) as [[] |]; reflexivity.
Qed.

(** X10.  [check_and_retry_kb_deletion] sends at most one request and
    never sleeps, whatever [max_retries] and [delay] are and whatever the
    request meets.  With [max_retries <= 0] it sends none and answers
    [False]; otherwise it sends one and answers [True], unless the request
    raises something other than a [ClientError], which it raises in turn. *)
Theorem check_and_retry_sends_one_request env (kb_id : string) (max_retries delay : Z)
    (ReverseEnggID : string) (w : World) :
  let r := check_and_retry_kb_deletion env kb_id max_retries delay ReverseEnggID w in
  (tick (snd r) <= S (tick w))%nat /\
  slept (snd r) = slept w /\
  (max_retries <= 0 -> r = (Ok false, w)) /\
  (0 < max_retries ->
   tick (snd r) = S (tick w) /\
   fst r = match faults env (tick w) with
           | None | Some ClientError => Ok true
           | Some e => Raise e
           end).
Proof.
  intros r. subst r. unfold check_and_retry_kb_deletion.
  destruct (Z.to_nat max_retries) as [| n] eqn:E.
  - simpl. repeat split; try lia.
  - assert (Hr : try_client (retry_loop env (S n) kb_id delay) (mret false) w
                 = match faults env (tick w) with
                   | None =>
                       (Ok true, emit (KbDeleted kb_id)
                                      (set_kb_pages (remove_kb kb_id (kb_pages w))
                                                    (set_tick (S (tick w)) w)))
                   | Some ClientError => (Ok true, set_tick (S (tick w)) w)
                   | Some e => (Raise e, set_tick (S (tick w)) w)
                   end).
    { simpl. unfold try_client. rewrite bind_run, delete_kb_run.
      destruct (faults env (tick w)) as [[] |]; reflexivity. }
    rewrite Hr.
    destruct (faults env (tick w)) as [[] |]; cbn [fst snd tick set_tick emit set_kb_pages];
      repeat split; try lia;
      unfold slept; simpl; rewrite ?omap_app; simpl; rewrite ?app_nil_r; reflexivity.
Qed.

Lemma check_and_retry_sends_one_request_witness :
  fst (check_and_retry_kb_deletion (fails_at 0 OtherError) "KB1" 3 5 "a" w_succeeded)
  = Raise OtherError.
Proof.
  pose proof (check_and_retry_sends_one_request (fails_at 0 OtherError) "KB1" 3 5 "a"
                w_succeeded) as (_ & _ & _ & H).
  apply H. lia.
Defined.

Lemma list_pages_raises env (pages : list (list KnowledgeBase))
    (acc : list KnowledgeBase) (w : World) (k : nat) (e : Exn) :
  (k < Nat.max 1 (length pages))%nat ->
  faults env (tick w + k) = Some e ->
  no_fault env (tick w) k ->
  exists w', list_pages env pages acc w = (Raise e, w').
Proof.
  revert acc w k. induction pages as [| p rest IH]; intros acc w k Hk Hf Hbefore.
  - simpl in Hk. assert (k = O) by lia. subst k.
    rewrite Nat.add_0_r in Hf.
    simpl. rewrite bind_run, (service_fault env _ w e Hf).
    eexists; reflexivity.
  - destruct k as [| k].
    + rewrite Nat.add_0_r in Hf.
      simpl. rewrite bind_run, (service_fault env _ w e Hf).
      eexists; reflexivity.
    + apply no_fault_step in Hbefore as [H0 Hbefore].
      simpl. rewrite bind_run, (service_ok env _ w H0). simpl.
      destruct rest as [| q rest]; [simpl in Hk; lia |].
      apply (IH (acc ++ p) (set_tick (S (tick w)) w) k).
      * simpl in *. lia.
      * cbn [tick set_tick]. rewrite <- Hf. f_equal. lia.
      * exact Hbefore.
Qed.

(** X12.  An exception of a listing request that is not a [ClientError]
    is not handled: [list_knowledge_bases] raises it to its caller, and the
    pages read before are lost with it. *)
Theorem listing_raises_other_errors env (w : World) (k : nat) (e : Exn) :
  (k < Nat.max 1 (length (kb_pages w)))%nat ->
  faults env (tick w + k) = Some e ->
  no_fault env (tick w) k ->
  e <> ClientError ->
  fst (list_knowledge_bases env w) = Raise e.
Proof.
  intros Hk Hf Hbefore Hne.
  unfold list_knowledge_bases, try_client.
  destruct (list_pages_raises env (kb_pages w) [] w k e Hk Hf Hbefore) as (w' & ->).
  destruct e; try reflexivity. congruence.
Qed.

Lemma listing_raises_other_errors_witness :
  fst (list_knowledge_bases (fails_at 1 OtherError)
         (set_kb_pages [[mkKB "KB1" "kb_a"]; [mkKB "KB3" "kb_c"]]%string w_empty))
  = Raise OtherError.
Proof.
  apply (listing_raises_other_errors (fails_at 1 OtherError)
           (set_kb_pages [[mkKB "KB1" "kb_a"]; [mkKB "KB3" "kb_c"]]%string w_empty)
           1%nat OtherError).
  - simpl. lia.
  - reflexivity.
  - intros j Hj. assert (j = 0%nat) by lia. subst j. reflexivity.
  - discriminate.
Defined.

(** * Dispatching the batches *)

Lemma dispatched_emit (e : Effect) (w : World) :
  dispatched (emit e w)
  = dispatched w ++ match e with Invoked p => [p] | _ => [] end.
Proof. unfold dispatched. simpl. rewrite omap_app. destruct e; reflexivity. Qed.

Lemma invoke_each_run env {A} (g : A -> Event) (xs : list A) (w : World) :
  no_fault env (tick w) (length xs) ->
  exists w',
    for_each xs (fun x => lambda_invoke env (g x)) w = (Ok tt, w') /\
    tick w' = (length xs + tick w)%nat /\
    dispatched w' = dispatched w ++ map g xs.
Proof.
  revert w. induction xs as [| x xs IH]; intros w Hnf.
  - exists w. simpl. rewrite app_nil_r. repeat split.
  - apply no_fault_step in Hnf as [H0 Hnf].
    simpl. rewrite bind_run. unfold lambda_invoke at 1.
    rewrite service_ok by exact H0. simpl.
    destruct (IH (emit (Invoked (g x)) (set_tick (S (tick w)) w)) Hnf)
      as (w' & -> & Ht & Hd).
    exists w'. split; [reflexivity |]. split.
    + rewrite Ht. simpl. lia.
    + rewrite Hd, dispatched_emit, <- app_assoc. reflexivity.
Qed.

Lemma slice_extends {A} (l : list A) (a b : Z) :
  0 <= a -> 0 <= b ->
  firstn (Z.to_nat a) l ++ py_slice l a (a + b) = firstn (Z.to_nat (a + b)) l.
Proof.
  intros Ha Hb. unfold py_slice, slice_bound.
  destruct (Z.ltb_spec a 0); [lia |]. destruct (Z.ltb_spec (a + b) 0); [lia |].
  destruct (Z.le_gt_cases a (Z.of_nat (length l))) as [Hle | Hgt].
  - rewrite (Z.min_l a) by lia.
    rewrite take_take_drop.
    destruct (Z.le_gt_cases (a + b) (Z.of_nat (length l))).
    + rewrite Z.min_l by lia. f_equal. lia.
    + rewrite Z.min_r by lia.
      rewrite (take_ge l (Z.to_nat (a + b))) by lia.
      apply take_ge. lia.
  - rewrite !Z.min_r by lia.
    replace (Z.to_nat (Z.of_nat (length l) - Z.of_nat (length l))) with O by lia.
    rewrite (take_ge l (Z.to_nat a)), (take_ge l (Z.to_nat (a + b))) by lia.
    simpl. apply app_nil_r.
Qed.

Lemma slices_concat {A} (l : list A) (b : Z) (n : nat) :
  0 <= b ->
  concat (map (fun i => py_slice l i (i + b)) (map (fun k => Z.of_nat k * b) (seq 0 n)))
  = firstn (Z.to_nat (Z.of_nat n * b)) l.
Proof.
  intros Hb. induction n as [| n IH].
  - reflexivity.
  - rewrite seq_S, !map_app, concat_app, IH. simpl. rewrite app_nil_r.
    replace (Z.of_nat (S n) * b) with (Z.of_nat n * b + b) by lia.
    apply slice_extends; lia.
Qed.

Lemma slice_length_bounds {A} (l : list A) (i b : Z) :
  0 <= i < Z.of_nat (length l) -> 0 < b ->
  (0 < length (py_slice l i (i + b)))%nat /\ Z.of_nat (length (py_slice l i (i + b))) <= b.
Proof.
  intros Hi Hb. unfold py_slice, slice_bound.
  destruct (Z.ltb_spec i 0); [lia |]. destruct (Z.ltb_spec (i + b) 0); [lia |].
  rewrite length_take, length_drop. lia.
Qed.

Lemma ceil_covers (n b : Z) :
  0 <= n -> 0 < b ->
  0 <= (n + b - 1) / b /\ n <= (n + b - 1) / b * b /\ ((n + b - 1) / b - 1) * b < n.
Proof.
  intros Hn Hb.
  pose proof (Z.div_mod (n + b - 1) b ltac:(lia)) as Hdm.
  pose proof (Z.mod_pos_bound (n + b - 1) b Hb) as Hmod.
  assert (0 <= (n + b - 1) / b) by (apply Z.div_pos; lia).
  nia.
Qed.

(** X13.  With a positive batch size and no refused invocation,
    [process_kb_batch_asynchronously] dispatches ceil(N/B) payloads for a
    sequence of N names: their batches, put end to end, are the sequence;
    each batch holds between one and B names; and the payload number k
    carries the start index k*B, the threshold and the job id. *)
Theorem dispatch_covers_the_sequence env (batch_size : Z) (kb_batch : list string)
    (start_index days : Z) (job : string) (w : World) :
  0 < batch_size ->
  let count := Z.to_nat ((Z.of_nat (length kb_batch) + batch_size - 1) / batch_size) in
  no_fault env (tick w) count ->
  exists (w' : World) (payloads : list Event),
    process_kb_batch_asynchronously env batch_size kb_batch start_index days job w
    = (Ok tt, w') /\
    dispatched w' = dispatched w ++ payloads /\
    length payloads = count /\
    concat (omap ev_kb_batch payloads) = kb_batch /\
    map ev_start_index payloads
    = map (fun k => Some (Z.of_nat k * batch_size)) (seq 0 count) /\
    Forall (fun p => exists batch,
              ev_kb_batch p = Some batch /\
              (0 < length batch)%nat /\ Z.of_nat (length batch) <= batch_size /\
              ev_days_threshold p = Some days /\ ev_job_id p = Some job) payloads.
Proof.
  intros HB count Hnf.
  destruct (ceil_covers (Z.of_nat (length kb_batch)) batch_size) as (Hq0 & Hcover & Hlast);
    [lia | exact HB |].
  set (starts := map (fun k => Z.of_nat k * batch_size) (seq 0 count)).
  set (g := fun i => mkEvent (Some (py_slice kb_batch i (i + batch_size))) (Some i)
                             (Some days) (Some job)).
  assert (Hstarts : py_range_step (Z.of_nat (length kb_batch)) batch_size = Ok starts).
  { unfold py_range_step.
    destruct (Z.eqb_spec batch_size 0); [lia |].
    destruct (Z.ltb_spec batch_size 0); [lia |]. reflexivity. }
  assert (Hlen : length starts = count)
    by (unfold starts; rewrite length_map, length_seq; reflexivity).
  destruct (invoke_each_run env g starts w) as (w' & Hrun & _ & Hd);
    [rewrite Hlen; exact Hnf |].
  exists w', (map g starts).
  split; [| split; [exact Hd | split; [| split; [| split]]]].
  - unfold process_kb_batch_asynchronously. rewrite bind_run. unfold lift.
    rewrite Hstarts. exact Hrun.
  - rewrite length_map. exact Hlen.
  - replace (omap ev_kb_batch (map g starts))
      with (map (fun i => py_slice kb_batch i (i + batch_size)) starts).
    + unfold starts. rewrite slices_concat by lia.
      apply take_ge. unfold count. lia.
    + clear. induction starts as [| i starts IH]; [reflexivity |].
      simpl. rewrite IH. reflexivity.
  - unfold starts. rewrite !map_map. reflexivity.
  - apply Forall_forall. intros p Hp.
    apply list_elem_of_In, in_map_iff in Hp as (i & <- & Hi).
    unfold starts in Hi. apply in_map_iff in Hi as (k & <- & Hk).
    apply in_seq in Hk.
    assert (Hin : 0 <= Z.of_nat k * batch_size < Z.of_nat (length kb_batch)).
    { unfold count in Hk. nia. }
    destruct (slice_length_bounds kb_batch (Z.of_nat k * batch_size) batch_size Hin HB)
      as (Hpos & Hle).
    eexists. simpl. repeat split; [exact Hpos | exact Hle].
Qed.

Lemma dispatch_covers_the_sequence_witness :
  exists (w' : World) (payloads : list Event),
    process_kb_batch_asynchronously calm 3
      ["kb_1"; "kb_2"; "kb_3"; "kb_4"; "kb_5"; "kb_6"; "kb_7"]%string 3 30 "job-1" w_seven
    = (Ok tt, w') /\
    dispatched w' = dispatched w_seven ++ payloads /\
    length payloads = 3%nat /\
    concat (omap ev_kb_batch payloads)
    = ["kb_1"; "kb_2"; "kb_3"; "kb_4"; "kb_5"; "kb_6"; "kb_7"]%string.
Proof.
  destruct (dispatch_covers_the_sequence calm 3
              ["kb_1"; "kb_2"; "kb_3"; "kb_4"; "kb_5"; "kb_6"; "kb_7"]%string
              3 30 "job-1" w_seven)
    as (w' & payloads & H1 & H2 & H3 & H4 & _).
  - lia.
  - intros j Hj. reflexivity.
  - exists w', payloads. repeat split; assumption.
Defined.

(** X14.  A refused invocation stops the dispatch where it is: when the
    invocation number k is the first to fail, [process_kb_batch_asynchronously]
    raises its exception, and the k payloads before it stay dispatched. *)
Theorem dispatch_stops_at_a_failure env (batch_size : Z) (kb_batch : list string)
    (start_index days : Z) (job : string) (w : World) (k : nat) (e : Exn) :
  0 < batch_size ->
  (Z.of_nat k * batch_size < Z.of_nat (length kb_batch)) ->
  no_fault env (tick w) k ->
  faults env (tick w + k) = Some e ->
  let r := process_kb_batch_asynchronously env batch_size kb_batch start_index days job w in
  fst r = Raise e /\
  map ev_start_index (dispatched (snd r))
  = map ev_start_index (dispatched w)
    ++ map (fun j => Some (Z.of_nat j * batch_size)) (seq 0 k).
Proof.
  intros HB Hk Hnf Hf r.
  destruct (ceil_covers (Z.of_nat (length kb_batch)) batch_size) as (Hq0 & Hcover & Hlast);
    [lia | exact HB |].
  set (count := Z.to_nat ((Z.of_nat (length kb_batch) + batch_size - 1) / batch_size)).
  assert (Hkc : (k < count)%nat) by (unfold count; nia).
  set (g := fun i => mkEvent (Some (py_slice kb_batch i (i + batch_size))) (Some i)
                             (Some days) (Some job)).
  set (before := map (fun j => Z.of_nat j * batch_size) (seq 0 k)).
  assert (Hlen : length before = k)
    by (unfold before; rewrite length_map, length_seq; reflexivity).
  assert (Hsplit : forall xs ys (w0 : World),
             for_each (xs ++ ys) (fun i => lambda_invoke env (g i)) w0
             = match for_each xs (fun i => lambda_invoke env (g i)) w0 with
               | (Ok _, w1) => for_each ys (fun i => lambda_invoke env (g i)) w1
               | (Raise x, w1) => (Raise x, w1)
               end).
  { intros xs ys. induction xs as [| x xs IH]; intros w0; simpl; [reflexivity |].
    rewrite !bind_run.
    destruct (lambda_invoke env (g x) w0) as [[[] | x0] w1]; [apply IH | reflexivity]. }
  destruct (invoke_each_run env g before w) as (w1 & Hrun & Ht & Hd).
  { rewrite Hlen. exact Hnf. }
  assert (E : r = (Raise e, set_tick (S (tick w1)) w1)).
  { unfold r, process_kb_batch_asynchronously. rewrite bind_run. unfold lift, py_range_step.
    destruct (Z.eqb_spec batch_size 0); [lia |].
    destruct (Z.ltb_spec batch_size 0); [lia |].
    fold count. fold g.
    replace count with (k + S (count - S k))%nat by lia.
    rewrite seq_app, map_app. fold before. simpl seq. rewrite map_cons.
    rewrite Hsplit, Hrun. simpl. rewrite bind_run. unfold lambda_invoke at 1.
    rewrite (service_fault env _ w1 e); [reflexivity |].
    rewrite Ht, Hlen, Nat.add_comm. exact Hf. }
  rewrite E. cbn [fst snd]. split; [reflexivity |].
  change (dispatched (set_tick (S (tick w1)) w1)) with (dispatched w1).
  rewrite Hd, map_app. f_equal.
  unfold before. rewrite !map_map. reflexivity.
Qed.

Lemma dispatch_stops_at_a_failure_witness :
  fst (process_kb_batch_asynchronously (fails_at 1 ClientError) 3
         ["kb_1"; "kb_2"; "kb_3"; "kb_4"; "kb_5"; "kb_6"; "kb_7"]%string 3 30 "job-1" w_seven)
  = Raise ClientError.
Proof.
  apply (dispatch_stops_at_a_failure (fails_at 1 ClientError) 3
           ["kb_1"; "kb_2"; "kb_3"; "kb_4"; "kb_5"; "kb_6"; "kb_7"]%string
           3 30 "job-1" w_seven 1%nat ClientError).
  - lia.
  - simpl. lia.
  - intros j Hj. assert (j = 0%nat) by lia. subst j. reflexivity.
  - reflexivity.
Defined.

(** * Continuations *)

(** [process_kb_batch_asynchronously] does not use its [start_index]. *)
Lemma dispatch_ignores_start_index env (batch_size : Z) (kb_batch : list string)
    (start1 start2 days : Z) (job : string) :
  process_kb_batch_asynchronously env batch_size kb_batch start1 days job
  = process_kb_batch_asynchronously env batch_size kb_batch start2 days job.
Proof. reflexivity. Qed.

(** Whatever the invocations meet, the payloads dispatched are those of
    the first of the start indices. *)
Lemma invoke_each_any env {A} (g : A -> Event) (xs : list A) (w : World) :
  exists k : nat,
    dispatched (snd (for_each xs (fun x => lambda_invoke env (g x)) w))
    = dispatched w ++ map g (take k xs).
Proof.
  revert w. induction xs as [| x xs IH]; intros w.
  - exists 0%nat. simpl. rewrite app_nil_r. reflexivity.
  - simpl. rewrite bind_run. unfold lambda_invoke at 1, service.
    destruct (faults env (tick w)) as [e |].
    + exists 0%nat. simpl. rewrite app_nil_r. reflexivity.
    + simpl.
      destruct (IH (emit (Invoked (g x)) (set_tick (S (tick w)) w))) as (k & Hk).
      exists (S k). rewrite Hk, dispatched_emit, <- app_assoc. reflexivity.
Qed.

(** Discovery asks for the credentials first, so it shows in the count of
    service calls. *)
Lemma discovery_is_counted env (days : Z) (w : World) :
  (tick w < tick (snd (find_outdated_kbs env days w)))%nat.
Proof. destruct (find_outdated_kbs_run env days w) as (w' & -> & H). simpl. lia. Qed.

(** C2, where it fails.  Discovery always makes a service call, and no
    invocation makes one: [lambda_handler] raises at line 379 for every
    event, what follows that line works on the batch the event carries,
    and [_handle_async_process] raises before its discovery is called.  So
    no continuation runs discovery, and neither does a trigger for a new
    job.  The payloads that [process_kb_batch_asynchronously] dispatches
    are cut from the one sequence it is given: each carries the slice that
    starts at its own start index. *)
Theorem no_invocation_runs_discovery env (batch_size : Z) :
  (forall (days : Z) (w : World),
     (tick w < tick (snd (find_outdated_kbs env days w)))%nat) /\
  (forall (event : Event) (w : World),
     lambda_handler env event w = (Raise OtherError, w)) /\
  (forall (bedrock_agent : Class) (event : Event) (w : World),
     tick (snd (handle_event env bedrock_agent event w)) = tick w) /\
  (forall (event : Event) (bedrock_agent vector_deleter : Class) (w : World),
     tick (snd (_handle_async_process env batch_size event bedrock_agent vector_deleter w))
     = tick w) /\
  (forall (kbs : list string) (start days : Z) (job : string) (w : World),
     exists starts : list Z,
       dispatched (snd (process_kb_batch_asynchronously env batch_size kbs start days job w))
       = dispatched w
         ++ map (fun i => mkEvent (Some (py_slice kbs i (i + batch_size))) (Some i)
                                  (Some days) (Some job)) starts).
Proof.
  split; [apply discovery_is_counted |].
  split; [apply lambda_handler_run |].
  split; [intros; rewrite handle_event_run; reflexivity |].
  split; [intros; rewrite handle_async_process_run; reflexivity |].
  intros kbs start days job w.
  unfold process_kb_batch_asynchronously. rewrite bind_run. unfold lift.
  destruct (py_range_step (Z.of_nat (length kbs)) batch_size) as [starts | e].
  - destruct (invoke_each_any env
                (fun i => mkEvent (Some (py_slice kbs i (i + batch_size))) (Some i)
                                  (Some days) (Some job)) starts w) as (k & Hk).
    exists (take k starts). exact Hk.
  - exists []. simpl. rewrite app_nil_r. reflexivity.
Qed.

(** A trigger for a new job over a catalogue with two outdated knowledge
    bases: no service is called, so nothing is discovered. *)
Example new_job_discovers_nothing :
  lambda_handler calm (new_job 30) w_two = (Raise OtherError, w_two) /\
  tick (snd (handle_event calm BedrockDBAgent (new_job 30) w_two)) = 0%nat /\
  dispatched (snd (handle_event calm BedrockDBAgent (new_job 30) w_two)) = [].
Proof. repeat split. Qed.

(** C3, where it fails.  The window, the new cursor and the continuation
    are computed by statements of [_handle_async_process] that no call
    reaches: the function raises at its first statement for every event,
    having processed and dispatched nothing.  And the function that would
    emit the continuation takes no notice of the cursor it is given: it
    dispatches the same payloads for any two cursors. *)
Theorem scheduling_is_never_reached env (batch_size : Z) :
  (forall (event : Event) (bedrock_agent vector_deleter : Class) (w : World),
     _handle_async_process env batch_size event bedrock_agent vector_deleter w
     = (Raise OtherError, w)) /\
  (forall (kbs : list string) (cursor1 cursor2 days : Z) (job : string) (w : World),
     process_kb_batch_asynchronously env batch_size kbs cursor1 days job w
     = process_kb_batch_asynchronously env batch_size kbs cursor2 days job w).
Proof.
  split; [intros; apply handle_async_process_run |].
  intros. rewrite (dispatch_ignores_start_index env batch_size kbs cursor1 cursor2). reflexivity.
Qed.

(** Scenario B: seven candidates and a batch size of three.  The
    invocation with cursor 0 raises; the dispatcher, called with the
    cursor 3, sends three payloads, with the cursors 0, 3 and 6. *)
Example scenario_b :
  let names := ["kb_1"; "kb_2"; "kb_3"; "kb_4"; "kb_5"; "kb_6"; "kb_7"]%string in
  _handle_async_process calm 3 (continuation [] 0 30 "job-1")
                        VectorTableDeleter VectorTableDeleter w_seven
  = (Raise OtherError, w_seven) /\
  map ev_start_index
      (dispatched (snd (process_kb_batch_asynchronously calm 3 names 3 30 "job-1" w_seven)))
  = [Some 0; Some 3; Some 6].
Proof. split; reflexivity. Qed.

(** * Discovery and cleanup in one call *)

(** X21.  A threshold that [timedelta] or [datetime] cannot hold selects
    nothing: with more than 999999999 days either way, or with [now - T]
    days before the year 1 or after the year 9999, discovery returns the
    empty sequence without an error, as it does for every threshold. *)
Theorem threshold_out_of_range env (now days : Z) (w : World) :
  fair env now ->
  999999999 < Z.abs days \/
  now - days * us_per_day < 0 \/
  datetime_max < now - days * us_per_day ->
  fst (find_outdated_kbs env days w) = Ok [].
Proof.
  intros _ _. destruct (find_outdated_kbs_run env days w) as (w' & -> & _). reflexivity.
Qed.

Lemma threshold_out_of_range_witness :
  fst (find_outdated_kbs calm 1000000000 w_two) = Ok [].
Proof.
  apply (threshold_out_of_range calm today 1000000000 w_two).
  - split; intros n; reflexivity.
  - left. reflexivity.
Defined.

(** X22.  [cleanup] returns the empty list and asks the catalogue for no
    deletion, in every environment: it changes neither the catalogue nor
    a table.  The request it would make for a name is a call of
    [delete_kb] on the [VectorTableDeleter], which raises. *)
Theorem cleanup_deletes_nothing env (days : Z) (w : World) :
  let r := cleanup env days w in
  fst r = Ok [] /\
  kb_deleted (snd r) = kb_deleted w /\
  kb_pages (snd r) = kb_pages w /\
  tables (snd r) = tables w /\
  (forall (kb_name : string) (rest : list string) (w0 : World),
     for_each (kb_name :: rest)
       (fun kb => bound_call VectorTableDeleter "delete_kb" 1 (delete_kb env kb)) w0
     = (Raise OtherError, w0)).
Proof.
  intros r.
  assert (E : r = (Ok [], snd (find_outdated_kbs env days w))).
  { unfold r, cleanup, try_all. rewrite bind_run.
    destruct (find_outdated_kbs_run env days w) as (w' & -> & _). reflexivity. }
  rewrite E. cbn [fst snd].
  split; [reflexivity |].
  split; [apply (reader_find_outdated_kbs env kb_deleted); reflexivity |].
  split; [apply (reader_find_outdated_kbs env kb_pages); reflexivity |].
  split; [apply (reader_find_outdated_kbs env tables); reflexivity |].
  intros kb_name rest w0. reflexivity.
Qed.

(** * Names and ids *)

Lemma occurs_later (sub : string) (c : ascii) (s : string) :
  occurs sub s -> occurs sub (String c s).
Proof. intros (pre & post & ->). exists (String c pre), post. reflexivity. Qed.

Lemma replace_without_occurrence (old new s : string) :
  ~ occurs old s -> replace_from old new 0 s = s.
Proof.
  induction s as [| c s IH]; intros Hno; [reflexivity |].
  cbn [replace_from].
  destruct (startswith old (String c s)) eqn:E.
  - exfalso. apply Hno. apply startswith_spec in E as (rest & Hrest).
    exists EmptyString, rest. exact Hrest.
  - f_equal. apply IH. intros Hocc. apply Hno, occurs_later, Hocc.
Qed.

(** X23.  Adding the prefix and taking it off again gives the ids back:
    [extract_re_id] undoes [_serialize_re_id_batch] for every id, and
    [_serialize_kb_batch], which removes "kb_" wherever it occurs, undoes
    it for the ids in which "kb_" does not occur. *)
Theorem prefix_round_trip (re_id_batch : list string) :
  map extract_re_id (_serialize_re_id_batch re_id_batch) = map Some re_id_batch /\
  ((forall re_id, In re_id re_id_batch -> ~ occurs "kb_" re_id) ->
   _serialize_kb_batch (_serialize_re_id_batch re_id_batch) = re_id_batch).
Proof.
  split.
  - unfold _serialize_re_id_batch. rewrite map_map.
    apply map_ext. intros re_id. reflexivity.
  - intros Hno. unfold _serialize_kb_batch, _serialize_re_id_batch. rewrite map_map.
    rewrite <- (map_id re_id_batch) at 2.
    apply map_ext_in. intros re_id Hin.
    change (py_replace "kb_" EmptyString ("kb_" +:+ re_id))
      with (replace_from "kb_" EmptyString 0 re_id).
    apply replace_without_occurrence, Hno, Hin.
Qed.

Lemma prefix_round_trip_witness :
  _serialize_kb_batch (_serialize_re_id_batch ["a1"; "b2"]%string) = ["a1"; "b2"]%string.
Proof.
  apply (proj2 (prefix_round_trip ["a1"; "b2"]%string)).
  intros re_id [<- | [<- | []]] (pre & post & H);
    destruct pre as [| c1 [| c2 [| c3 pre]]]; discriminate H.
Defined.

(** Where "kb_" occurs inside a name the two differ: [extract_re_id] takes
    the prefix off, [_serialize_kb_batch] every occurrence. *)
Example inner_occurrence :
  extract_re_id "kb_akb_b" = Some "akb_b"%string /\
  _serialize_kb_batch ["kb_akb_b"]%string = ["ab"]%string.
Proof. split; reflexivity. Qed.

